(** * Bookstore backend: cart, checkout, review and comment controllers

    A shallow embedding of the Prisma-backed controllers of the bookstore
    API (cart.controller.ts, order.controller.ts, review.controller.ts,
    comment.controller.ts) together with the part of the relational schema
    (migration.sql) they read and write.

    Conventions of the embedding:
    - a table is a finite map from its primary key to its row, so the
      primary-key constraint is structural; composite keys are pairs;
    - INTEGER columns and JavaScript integers are [Z]; DECIMAL money
      columns are [Z] amounts (the seed data use whole KRW),
      so [Number(unitPrice) * quantity] is exact;
    - DATETIME values are [Z] instants; [new Date()] and the column default
      CURRENT_TIMESTAMP are the [now] argument of a controller; the
      [updatedAt] columns, which have no default and which no controller
      sets, are written by the client on every create and update;
    - the User table is not part of the model: the user id of a request is
      the one the auth middleware has verified, and foreign keys to User
      always resolve;
    - a Prisma call is a computation in a state-and-error monad over the
      database; a call issued on the global client commits on its own, a
      [$transaction] callback commits once at its end or not at all. *)

From Stdlib Require Import QArith Qcanon.
From Stdlib Require Import Ascii.
From stdpp Require Import gmap list sorting strings numbers.

Local Open Scope Z_scope.

(** ** Errors *)

(** The [code] strings passed to [new ApiError(status, code, message)]. *)
Inductive ErrorCode : Type :=
  | BAD_REQUEST
  | VALIDATION_FAILED
  | UNAUTHORIZED
  | FORBIDDEN
  | RESOURCE_NOT_FOUND
  | DUPLICATE_RESOURCE
  | UNPROCESSABLE_ENTITY.

(** Errors raised by the Prisma client itself: a unique or primary key
    violation (P2002), a foreign key violation (P2003), an update of a row
    that does not exist (P2025), and a required relation that is missing in
    the result of an [include]. *)
Inductive PrismaCode : Type :=
  | P2002
  | P2003
  | P2025
  | InconsistentResult.

Inductive Failure : Type :=
  | ApiError (status : Z) (code : ErrorCode)
  | PrismaError (c : PrismaCode).

Inductive Result (A : Type) : Type :=
  | Ok (a : A)
  | Err (e : Failure).
Arguments Ok {A} a.
Arguments Err {A} e.

(** ** The state-and-error monad *)

Definition SE (S A : Type) : Type := S → Result A * S.

Definition ret {S A : Type} (a : A) : SE S A := λ s, (Ok a, s).

Definition bind {S A B : Type} (m : SE S A) (k : A → SE S B) : SE S B :=
  λ s, match m s with
       | (Ok a, s') => k a s'
       | (Err e, s') => (Err e, s')
       end.

Definition throw {S A : Type} (e : Failure) : SE S A := λ s, (Err e, s).

Definition gets {S A : Type} (f : S → A) : SE S A := λ s, (Ok (f s), s).

Definition modify {S : Type} (f : S → S) : SE S unit := λ s, (Ok tt, f s).

Notation "x <- c1 ;; c2" := (bind c1 (λ x, c2))
  (at level 100, c1 at next level, right associativity).
Notation "c1 ;; c2" := (bind c1 (λ _, c2))
  (at level 100, right associativity).

(** [for (const x of xs) { body }] *)
Fixpoint forEach {S A : Type} (xs : list A) (body : A → SE S unit) : SE S unit :=
  match xs with
  | [] => ret tt
  | x :: xs' => body x ;; forEach xs' body
  end.

(** [if (cond) throw e;] *)
Definition throwIf {S : Type} (cond : bool) (e : Failure) : SE S unit :=
  if cond then throw e else ret tt.

(** ** Schema (prisma/migrations/.../migration.sql) *)

(** The tables the cart, order, review and comment controllers touch, with
    the columns they read or write.  Left out are the descriptive columns
    of Book (isbn13, description, publicationDate, coverUrl, format,
    language, publisher) and its timestamps, and [Comment.parentId], which
    no controller sets. *)

Inductive CartStatus : Type := ACTIVE | CHECKED_OUT | ABANDONED.
Inductive OrderStatus : Type :=
  PENDING | PAID | SHIPPED | COMPLETED | CANCELLED | REFUNDED.
Inductive PaymentStatus : Type :=
  UNPAID | PAYMENT_PAID | PAYMENT_REFUNDED | PAYMENT_FAILED.

Global Instance CartStatus_eq_dec : EqDecision CartStatus.
Proof. solve_decision. Defined.
Global Instance OrderStatus_eq_dec : EqDecision OrderStatus.
Proof. solve_decision. Defined.
Global Instance PaymentStatus_eq_dec : EqDecision PaymentStatus.
Proof. solve_decision. Defined.

Record Book : Type := mkBook {
  book_title : string;
  book_price : Z;
  book_currency : string;
  book_stock : Z;
  book_avgRating : Qc;
  book_reviewCount : Z;
  book_deletedAt : option Z
}.

Record Review : Type := mkReview {
  review_userId : Z;
  review_bookId : Z;
  review_title : option string;
  review_content : string;
  review_rating : Z;
  review_likeCount : Z;
  review_commentCount : Z;
  review_createdAt : Z;
  review_updatedAt : Z;
  review_deletedAt : option Z
}.

Record Comment : Type := mkComment {
  comment_reviewId : Z;
  comment_userId : Z;
  comment_content : string;
  comment_likeCount : Z;
  comment_createdAt : Z;
  comment_updatedAt : Z;
  comment_deletedAt : option Z
}.

Record Cart : Type := mkCart {
  cart_userId : Z;
  cart_status : CartStatus;
  cart_createdAt : Z;
  cart_updatedAt : Z
}.

Record CartItem : Type := mkCartItem {
  item_quantity : Z;
  item_unitPrice : Z;
  item_createdAt : Z;
  item_updatedAt : Z
}.

Record Order : Type := mkOrder {
  order_userId : Z;
  order_cartId : option Z;
  order_status : OrderStatus;
  order_paymentStatus : PaymentStatus;
  order_totalAmount : Z;
  order_placedAt : option Z;
  order_createdAt : Z;
  order_updatedAt : Z
}.

Record OrderItem : Type := mkOrderItem {
  oi_quantity : Z;
  oi_unitPrice : Z;
  oi_bookTitleSnapshot : string
}.

(** The tables the four controllers touch.  [reviewLikes] and
    [commentLikes] are keyed by (userId, targetId) and hold [createdAt];
    [cartItems] is keyed by (cartId, bookId), [orderItems] by
    (orderId, bookId). *)
Record DB : Type := mkDB {
  books : gmap Z Book;
  reviews : gmap Z Review;
  reviewLikes : gmap (Z * Z) Z;
  comments : gmap Z Comment;
  commentLikes : gmap (Z * Z) Z;
  carts : gmap Z Cart;
  cartItems : gmap (Z * Z) CartItem;
  orders : gmap Z Order;
  orderItems : gmap (Z * Z) OrderItem
}.

Definition emptyDB : DB := mkDB ∅ ∅ ∅ ∅ ∅ ∅ ∅ ∅ ∅.

Definition set_books (f : gmap Z Book → gmap Z Book) (d : DB) : DB :=
  mkDB (f (books d)) (reviews d) (reviewLikes d) (comments d) (commentLikes d)
       (carts d) (cartItems d) (orders d) (orderItems d).
Definition set_reviews (f : gmap Z Review → gmap Z Review) (d : DB) : DB :=
  mkDB (books d) (f (reviews d)) (reviewLikes d) (comments d) (commentLikes d)
       (carts d) (cartItems d) (orders d) (orderItems d).
Definition set_reviewLikes (f : gmap (Z * Z) Z → gmap (Z * Z) Z) (d : DB) : DB :=
  mkDB (books d) (reviews d) (f (reviewLikes d)) (comments d) (commentLikes d)
       (carts d) (cartItems d) (orders d) (orderItems d).
Definition set_comments (f : gmap Z Comment → gmap Z Comment) (d : DB) : DB :=
  mkDB (books d) (reviews d) (reviewLikes d) (f (comments d)) (commentLikes d)
       (carts d) (cartItems d) (orders d) (orderItems d).
Definition set_commentLikes (f : gmap (Z * Z) Z → gmap (Z * Z) Z) (d : DB) : DB :=
  mkDB (books d) (reviews d) (reviewLikes d) (comments d) (f (commentLikes d))
       (carts d) (cartItems d) (orders d) (orderItems d).
Definition set_carts (f : gmap Z Cart → gmap Z Cart) (d : DB) : DB :=
  mkDB (books d) (reviews d) (reviewLikes d) (comments d) (commentLikes d)
       (f (carts d)) (cartItems d) (orders d) (orderItems d).
Definition set_cartItems (f : gmap (Z * Z) CartItem → gmap (Z * Z) CartItem) (d : DB) : DB :=
  mkDB (books d) (reviews d) (reviewLikes d) (comments d) (commentLikes d)
       (carts d) (f (cartItems d)) (orders d) (orderItems d).
Definition set_orders (f : gmap Z Order → gmap Z Order) (d : DB) : DB :=
  mkDB (books d) (reviews d) (reviewLikes d) (comments d) (commentLikes d)
       (carts d) (cartItems d) (f (orders d)) (orderItems d).
Definition set_orderItems (f : gmap (Z * Z) OrderItem → gmap (Z * Z) OrderItem) (d : DB) : DB :=
  mkDB (books d) (reviews d) (reviewLikes d) (comments d) (commentLikes d)
       (carts d) (cartItems d) (orders d) (f (orderItems d)).

(** ** The Prisma client *)

(** A computation running against the database inside one transaction. *)
Abbreviation Tx := (SE DB).

(** What the server holds: the current database, and the history of the
    states that were committed to it, oldest first.  A state in [commits]
    is one that another request, or a restart after a crash, can observe. *)
Record Store : Type := mkStore {
  db : DB;
  commits : list DB
}.

(** A controller: a computation over the store. *)
Abbreviation Handler := (SE Store).

(** [prisma.$transaction(async (tx) => body)]: the body runs on the current
    database; when it returns, its writes are committed together, and when
    it throws, they are all discarded and the error is rethrown. *)
Definition transaction {A : Type} (body : Tx A) : Handler A :=
  λ st, match body (db st) with
        | (Ok a, d') => (Ok a, mkStore d' (commits st ++ [d']))
        | (Err e, _) => (Err e, st)
        end.

(** A single write issued on the global client, [await prisma.t.create(..)]
    or [update] or [deleteMany]: a statement committed on its own. *)
Definition prisma {A : Type} (stmt : Tx A) : Handler A := transaction stmt.

(** A read issued on the global client. *)
Definition query {A : Type} (f : DB → A) : Handler A := gets (λ st, f (db st)).

(** Rows of a table in primary-key order, the order in which a [findFirst]
    or [findMany] without [orderBy] scans them. *)
Definition keyLe {V : Type} (a b : Z * V) : Prop := a.1 ≤ b.1.

Global Instance keyLe_dec {V : Type} (a b : Z * V) : Decision (keyLe a b).
Proof. unfold keyLe. apply _. Defined.

Definition rows {V : Type} (m : gmap Z V) : list (Z * V) :=
  merge_sort keyLe (map_to_list m).

(** AUTO_INCREMENT: no controller ever removes a row of a table with a
    generated id, so the next id is one past the largest id in the table. *)
Definition nextId {V : Type} (m : gmap Z V) : Z :=
  1 + foldr Z.max 0 (map_to_list m).*1.

(** ** Request helpers (the same in every controller file) *)

(** What JavaScript's [Number(v)] makes of a request value: an integer, or
    something for which [Number.isInteger] is false (NaN, a fraction, an
    infinity). *)
Inductive JsNumber : Type :=
  | JsInt (z : Z)
  | JsNotInteger.

Definition parseId (param : JsNumber) : Result Z :=
  match param with
  | JsInt id => if bool_decide (id ≤ 0) then Err (ApiError 400 BAD_REQUEST) else Ok id
  | JsNotInteger => Err (ApiError 400 BAD_REQUEST)
  end.

Definition liftR {S A : Type} (r : Result A) : SE S A :=
  match r with
  | Ok a => ret a
  | Err e => throw e
  end.

(** [const authUser = req.user; if (!authUser) throw new ApiError(401, ..)] *)
Definition requireAuth {S : Type} (authUser : option Z) : SE S Z :=
  match authUser with
  | Some id => ret id
  | None => throw (ApiError 401 UNAUTHORIZED)
  end.

(** Rows of a table with a composite key, in primary-key order. *)
Definition key2Le {V : Type} (a b : Z * Z * V) : Prop :=
  a.1.1 < b.1.1 ∨ (a.1.1 = b.1.1 ∧ a.1.2 ≤ b.1.2).

Global Instance key2Le_dec {V : Type} (a b : Z * Z * V) : Decision (key2Le a b).
Proof. unfold key2Le. apply _. Defined.

Definition rows2 {V : Type} (m : gmap (Z * Z) V) : list (Z * Z * V) :=
  merge_sort key2Le (map_to_list m).

(** ** Statements on single tables *)

(** [book.findFirst({ where: { id, deletedAt: null } })] *)
Definition book_findFirstLive (id : Z) (d : DB) : option Book :=
  match books d !! id with
  | Some b => if book_deletedAt b is None then Some b else None
  | None => None
  end.

(** [book.update({ where: { id }, data })] *)
Definition book_update (id : Z) (f : Book → Book) : Tx unit :=
  λ d, match books d !! id with
       | Some b => (Ok tt, set_books (insert id (f b)) d)
       | None => (Err (PrismaError P2025), d)
       end.

(** [data: { stock: value }] *)
Definition book_with_stock (v : Z) (b : Book) : Book :=
  mkBook (book_title b) (book_price b) (book_currency b) v
         (book_avgRating b) (book_reviewCount b) (book_deletedAt b).

(** [cart.findFirst({ where: { userId, status: "ACTIVE" } })] *)
Definition cart_findFirstActive (userId : Z) (d : DB) : option (Z * Cart) :=
  List.find
    (λ r, bool_decide (cart_userId r.2 = userId ∧ cart_status r.2 = ACTIVE))
    (rows (carts d)).

(** [cart.create({ data: { userId, status: "ACTIVE" } })].  The owner is
    the authenticated user, whose row in the User table (not modelled) the
    foreign key refers to. *)
Definition cart_create (userId now : Z) : Tx (Z * Cart) :=
  λ d, let id := nextId (carts d) in
       let c := mkCart userId ACTIVE now now in
       (Ok (id, c), set_carts (insert id c) d).

(** [cart.update({ where: { id }, data })] *)
Definition cart_update (id : Z) (f : Cart → Cart) : Tx unit :=
  λ d, match carts d !! id with
       | Some c => (Ok tt, set_carts (insert id (f c)) d)
       | None => (Err (PrismaError P2025), d)
       end.

(** [cartItem.findUnique({ where: { cartId_bookId: { cartId, bookId } } })] *)
Definition cartItem_findUnique (cartId bookId : Z) (d : DB) : option CartItem :=
  cartItems d !! (cartId, bookId).

(** [cartItem.create({ data })]: the primary key (cartId, bookId) must be
    free and both foreign keys must resolve. *)
Definition cartItem_create (cartId bookId : Z) (it : CartItem) : Tx CartItem :=
  λ d, if bool_decide (is_Some (cartItems d !! (cartId, bookId)))
       then (Err (PrismaError P2002), d)
       else if bool_decide (carts d !! cartId = None ∨ books d !! bookId = None)
       then (Err (PrismaError P2003), d)
       else (Ok it, set_cartItems (insert (cartId, bookId) it) d).

(** [cartItem.update({ where: { cartId_bookId }, data })] *)
Definition cartItem_update (cartId bookId : Z) (f : CartItem → CartItem) : Tx CartItem :=
  λ d, match cartItems d !! (cartId, bookId) with
       | Some it => (Ok (f it), set_cartItems (insert (cartId, bookId) (f it)) d)
       | None => (Err (PrismaError P2025), d)
       end.

(** [cartItem.deleteMany({ where: { cartId, bookId } })] *)
Definition cartItem_deleteMany (cartId bookId : Z) : Tx unit :=
  modify (set_cartItems (delete (cartId, bookId))).

(** A cart item together with its book, as [include: { book }] returns it. *)
Record CartItemWithBook : Type := mkCartItemWithBook {
  cib_bookId : Z;
  cib_item : CartItem;
  cib_book : Book
}.

(** The cart items of one cart, in primary-key order. *)
Definition cartItem_ofCart (cartId : Z) (d : DB) : list (Z * CartItem) :=
  omap (λ r, if bool_decide (r.1.1 = cartId) then Some (r.1.2, r.2) else None)
       (rows2 (cartItems d)).

(** [cartItem.findMany({ where: { cartId, book: { deletedAt: null } },
    include: { book } })], before ordering and paging. *)
Definition cartItem_findManyLive (cartId : Z) (d : DB) : list CartItemWithBook :=
  omap (λ r, match book_findFirstLive r.1 d with
             | Some b => Some (mkCartItemWithBook r.1 r.2 b)
             | None => None
             end)
       (cartItem_ofCart cartId d).

(** [cartItem.findMany({ where: { cartId }, include: { book } })].  The
    relation is required: an item whose book row is missing makes the
    client throw. *)
Fixpoint includeBook (d : DB) (l : list (Z * CartItem)) : Result (list CartItemWithBook) :=
  match l with
  | [] => Ok []
  | r :: l' =>
      match books d !! r.1, includeBook d l' with
      | Some b, Ok rest => Ok (mkCartItemWithBook r.1 r.2 b :: rest)
      | None, _ => Err (PrismaError InconsistentResult)
      | _, Err e => Err e
      end
  end.

Definition cartItem_findManyWithBook (cartId : Z) : Tx (list CartItemWithBook) :=
  λ d, match includeBook d (cartItem_ofCart cartId d) with
       | Ok l => (Ok l, d)
       | Err e => (Err e, d)
       end.

(** [order.create({ data })]: [cartId] is unique among orders and refers
    to a cart. *)
Definition order_create (o : Order) : Tx (Z * Order) :=
  λ d, let id := nextId (orders d) in
       match order_cartId o with
       | Some c =>
           if bool_decide (Exists (λ r, order_cartId r.2 = Some c) (map_to_list (orders d)))
           then (Err (PrismaError P2002), d)
           else if bool_decide (carts d !! c = None)
           then (Err (PrismaError P2003), d)
           else (Ok (id, o), set_orders (insert id o) d)
       | None => (Ok (id, o), set_orders (insert id o) d)
       end.

(** [orderItem.create({ data })] *)
Definition orderItem_create (orderId bookId : Z) (oi : OrderItem) : Tx unit :=
  λ d, if bool_decide (is_Some (orderItems d !! (orderId, bookId)))
       then (Err (PrismaError P2002), d)
       else if bool_decide (orders d !! orderId = None ∨ books d !! bookId = None)
       then (Err (PrismaError P2003), d)
       else (Ok tt, set_orderItems (insert (orderId, bookId) oi) d).

(** ** cart.controller.ts *)

Definition parseQuantity (value : JsNumber) : Result Z :=
  match value with
  | JsInt q =>
      if bool_decide (q < 1) || bool_decide (q > 999)
      then Err (ApiError 400 VALIDATION_FAILED)
      else Ok q
  | JsNotInteger => Err (ApiError 400 VALIDATION_FAILED)
  end.

(** ACTIVE cart of the user, created when there is none. *)
Definition getOrCreateActiveCart (userId now : Z) : Handler (Z * Cart) :=
  cart <- query (cart_findFirstActive userId) ;;
  match cart with
  | Some c => ret c
  | None => prisma (cart_create userId now)
  end.

Record CartLine : Type := mkCartLine {
  line_bookId : Z;
  line_quantity : Z;
  line_unitPrice : Z;
  line_lineTotal : Z;
  line_addedAt : Z;
  line_updatedAt : Z;
  line_book : Book
}.

Record CartPage : Type := mkCartPage {
  page_cartId : Z;
  page_cartStatus : CartStatus;
  page_content : list CartLine;
  page_subtotal : Z;
  page_currency : string;
  page_page : Z;
  page_size : Z;
  page_totalElements : Z;
  page_totalPages : Z
}.

(** [orderBy: { createdAt: "desc" }] *)
Definition createdAtDesc (a b : CartItemWithBook) : Prop :=
  item_createdAt (cib_item b) ≤ item_createdAt (cib_item a).

Global Instance createdAtDesc_dec a b : Decision (createdAtDesc a b).
Proof. unfold createdAtDesc. apply _. Defined.

(** [skip: (page - 1) * size, take: size] *)
Definition paginate {A : Type} (page size : Z) (l : list A) : list A :=
  take (Z.to_nat size) (drop (Z.to_nat ((page - 1) * size)) l).

(** [items.reduce((sum, it) => sum + Number(it.unitPrice) * it.quantity, 0)] *)
Definition sumLines (items : list CartItemWithBook) : Z :=
  foldl (λ sum it, sum + item_unitPrice (cib_item it) * item_quantity (cib_item it)) 0 items.

Definition toCartLine (it : CartItemWithBook) : CartLine :=
  mkCartLine (cib_bookId it)
             (item_quantity (cib_item it))
             (item_unitPrice (cib_item it))
             (item_unitPrice (cib_item it) * item_quantity (cib_item it))
             (item_createdAt (cib_item it))
             (item_updatedAt (cib_item it))
             (cib_book it).

(** The page of cart items that [listCartController] reads. *)
Definition listCartItems (cartId page size : Z) (d : DB) : list CartItemWithBook :=
  paginate page size (merge_sort createdAtDesc (cartItem_findManyLive cartId d)).

(** GET /cart.  [qpage] and [qsize] are the integer query parameters, [None]
    when absent. *)
Definition listCartController (authUser : option Z) (qpage qsize : option Z) (now : Z)
  : Handler CartPage :=
  userId <- requireAuth authUser ;;
  let page := Z.max (default 1 qpage) 1 in
  let size := Z.min (Z.max (default 20 qsize) 1) 100 in
  cart <- getOrCreateActiveCart userId now ;;
  total <- query (λ d, Z.of_nat (length (cartItem_findManyLive cart.1 d))) ;;
  items <- query (listCartItems cart.1 page size) ;;
  let subtotal := sumLines items in
  ret (mkCartPage cart.1 (cart_status cart.2)
                  (toCartLine <$> items)
                  subtotal
                  (match items with
                   | it :: _ => book_currency (cib_book it)
                   | [] => "KRW"%string
                   end)
                  (page - 1) size total
                  ((total + size - 1) / size)).

Record CartItemPayload : Type := mkCartItemPayload {
  cip_cartId : Z;
  cip_bookId : Z;
  cip_quantity : Z;
  cip_unitPrice : Z;
  cip_updatedAt : Z
}.

(** POST /cart/items, body { bookId, quantity } *)
Definition addCartItemController (authUser : option Z) (bookId quantity : JsNumber) (now : Z)
  : Handler CartItemPayload :=
  userId <- requireAuth authUser ;;
  bId <- liftR (parseId bookId) ;;
  q <- liftR (parseQuantity quantity) ;;
  cart <- getOrCreateActiveCart userId now ;;
  book <- query (book_findFirstLive bId) ;;
  match book with
  | None => throw (ApiError 404 RESOURCE_NOT_FOUND)
  | Some book =>
      throwIf (bool_decide (book_stock book < q)) (ApiError 422 UNPROCESSABLE_ENTITY) ;;
      result <- transaction (
        existing <- gets (cartItem_findUnique cart.1 bId) ;;
        match existing with
        | None =>
            cartItem_create cart.1 bId (mkCartItem q (book_price book) now now)
        | Some existing =>
            let newQty := item_quantity existing + q in
            throwIf (bool_decide (newQty > book_stock book))
                    (ApiError 422 UNPROCESSABLE_ENTITY) ;;
            cartItem_update cart.1 bId
              (λ it, mkCartItem newQty (item_unitPrice it) (item_createdAt it) now)
        end) ;;
      ret (mkCartItemPayload cart.1 bId (item_quantity result)
                             (item_unitPrice result) (item_updatedAt result))
  end.

(** PATCH /cart/items/:bookId, body { quantity } *)
Definition updateCartItemController (authUser : option Z) (bookId quantity : JsNumber) (now : Z)
  : Handler CartItemPayload :=
  userId <- requireAuth authUser ;;
  bId <- liftR (parseId bookId) ;;
  q <- liftR (parseQuantity quantity) ;;
  cart <- getOrCreateActiveCart userId now ;;
  book <- query (book_findFirstLive bId) ;;
  match book with
  | None => throw (ApiError 404 RESOURCE_NOT_FOUND)
  | Some book =>
      throwIf (bool_decide (book_stock book < q)) (ApiError 422 UNPROCESSABLE_ENTITY) ;;
      existing <- query (cartItem_findUnique cart.1 bId) ;;
      match existing with
      | None => throw (ApiError 404 RESOURCE_NOT_FOUND)
      | Some _ =>
          updated <- prisma (cartItem_update cart.1 bId
            (λ it, mkCartItem q (item_unitPrice it) (item_createdAt it) now)) ;;
          ret (mkCartItemPayload cart.1 bId (item_quantity updated)
                                 (item_unitPrice updated) (item_updatedAt updated))
      end
  end.

(** DELETE /cart/items/:bookId *)
Definition removeCartItemController (authUser : option Z) (bookId : JsNumber) (now : Z)
  : Handler (Z * Z) :=
  userId <- requireAuth authUser ;;
  bId <- liftR (parseId bookId) ;;
  cart <- getOrCreateActiveCart userId now ;;
  prisma (cartItem_deleteMany cart.1 bId) ;;
  ret (cart.1, bId).

(** ** order.controller.ts *)

Record OrderCreated : Type := mkOrderCreated {
  created_orderId : Z;
  created_createdAt : Z
}.

(** Step 3 of the checkout: a deleted book or a short stock aborts. *)
Definition validateItem (it : CartItemWithBook) : Tx unit :=
  throwIf (bool_decide (is_Some (book_deletedAt (cib_book it))))
          (ApiError 422 UNPROCESSABLE_ENTITY) ;;
  throwIf (bool_decide (book_stock (cib_book it) < item_quantity (cib_item it)))
          (ApiError 422 UNPROCESSABLE_ENTITY).

(** Step 6 of the checkout, for one item: the order item with the title
    snapshot, then the stock decrement. *)
Definition placeItem (orderId : Z) (it : CartItemWithBook) : Tx unit :=
  orderItem_create orderId (cib_bookId it)
    (mkOrderItem (item_quantity (cib_item it)) (item_unitPrice (cib_item it))
                 (book_title (cib_book it))) ;;
  book_update (cib_bookId it)
    (λ b, book_with_stock (book_stock b - item_quantity (cib_item it)) b).

(** The callback of the checkout transaction. *)
Definition checkout (userId now : Z) : Tx OrderCreated :=
  cart <- gets (cart_findFirstActive userId) ;;
  match cart with
  | None => throw (ApiError 404 RESOURCE_NOT_FOUND)
  | Some cart =>
      cartItems <- cartItem_findManyWithBook cart.1 ;;
      throwIf (bool_decide (length cartItems = 0%nat)) (ApiError 422 UNPROCESSABLE_ENTITY) ;;
      forEach cartItems validateItem ;;
      let totalAmount := sumLines cartItems in
      order <- order_create
                 (mkOrder userId (Some cart.1) PENDING UNPAID totalAmount (Some now) now now) ;;
      forEach cartItems (placeItem order.1) ;;
      cart_update cart.1
        (λ c, mkCart (cart_userId c) CHECKED_OUT (cart_createdAt c) now) ;;
      ret (mkOrderCreated order.1 (order_createdAt order.2))
  end.

(** POST /orders *)
Definition createOrderFromCartController (authUser : option Z) (now : Z)
  : Handler OrderCreated :=
  userId <- requireAuth authUser ;;
  transaction (checkout userId now).

(** ** Statements on reviews, comments and their likes *)

(** [review.findUnique({ where: { id } })] *)
Definition review_findUnique (id : Z) (d : DB) : option Review := reviews d !! id.

(** [review.findFirst({ where: { id, deletedAt: null } })] *)
Definition review_findFirstLive (id : Z) (d : DB) : option Review :=
  match reviews d !! id with
  | Some r => if review_deletedAt r is None then Some r else None
  | None => None
  end.

(** [review.create({ data })]: (userId, bookId) is unique among reviews,
    deleted or not, and [bookId] refers to a book. *)
Definition review_create (r : Review) : Tx (Z * Review) :=
  λ d, let id := nextId (reviews d) in
       if bool_decide (Exists (λ x, review_userId x.2 = review_userId r ∧
                                    review_bookId x.2 = review_bookId r)
                              (map_to_list (reviews d)))
       then (Err (PrismaError P2002), d)
       else if bool_decide (books d !! review_bookId r = None)
       then (Err (PrismaError P2003), d)
       else (Ok (id, r), set_reviews (insert id r) d).

(** [review.update({ where: { id }, data })] *)
Definition review_update (id : Z) (f : Review → Review) : Tx Review :=
  λ d, match reviews d !! id with
       | Some r => (Ok (f r), set_reviews (insert id (f r)) d)
       | None => (Err (PrismaError P2025), d)
       end.

(** The non-deleted reviews of a book: [where: { bookId, deletedAt: null }]. *)
Definition liveReviewOf (bookId : Z) (r : Z * Review) : Prop :=
  review_bookId r.2 = bookId ∧ review_deletedAt r.2 = None.

Global Instance liveReviewOf_dec bookId r : Decision (liveReviewOf bookId r).
Proof. unfold liveReviewOf. apply _. Defined.

Record ReviewAggregate : Type := mkReviewAggregate {
  agg_count : Z;
  agg_avg : option Qc
}.

(** [review.aggregate({ where: { bookId, deletedAt: null },
    _count: { id: true }, _avg: { rating: true } })]: COUNT and AVG of the
    store, AVG of no row being NULL.  The average is kept exact here; the
    store rounds it to the precision of its decimal type. *)
Definition review_aggregate (bookId : Z) (d : DB) : ReviewAggregate :=
  let rs := filter (liveReviewOf bookId) (rows (reviews d)) in
  let count := Z.of_nat (length rs) in
  let total := foldr (λ r acc, review_rating r.2 + acc) 0 rs in
  mkReviewAggregate count
    (if bool_decide (count = 0) then None
     else Some (Qc_of_Z total / Qc_of_Z count)%Qc).

(** [reviewLike.findUnique({ where: { userId_reviewId } })] *)
Definition reviewLike_findUnique (userId reviewId : Z) (d : DB) : option Z :=
  reviewLikes d !! (userId, reviewId).

(** [reviewLike.create({ data: { userId, reviewId } })] *)
Definition reviewLike_create (userId reviewId now : Z) : Tx unit :=
  λ d, if bool_decide (is_Some (reviewLikes d !! (userId, reviewId)))
       then (Err (PrismaError P2002), d)
       else if bool_decide (reviews d !! reviewId = None)
       then (Err (PrismaError P2003), d)
       else (Ok tt, set_reviewLikes (insert (userId, reviewId) now) d).

(** [reviewLike.delete({ where: { userId_reviewId } })] *)
Definition reviewLike_delete (userId reviewId : Z) : Tx unit :=
  λ d, match reviewLikes d !! (userId, reviewId) with
       | Some _ => (Ok tt, set_reviewLikes (delete (userId, reviewId)) d)
       | None => (Err (PrismaError P2025), d)
       end.

(** [reviewLike.deleteMany({ where: { reviewId } })] *)
Definition reviewLike_deleteMany (reviewId : Z) : Tx unit :=
  modify (set_reviewLikes (filter (λ kv, kv.1.2 ≠ reviewId))).

(** [comment.findUnique({ where: { id } })] *)
Definition comment_findUnique (id : Z) (d : DB) : option Comment := comments d !! id.

(** [comment.create({ data })] *)
Definition comment_create (c : Comment) : Tx (Z * Comment) :=
  λ d, let id := nextId (comments d) in
       if bool_decide (reviews d !! comment_reviewId c = None)
       then (Err (PrismaError P2003), d)
       else (Ok (id, c), set_comments (insert id c) d).

(** [comment.update({ where: { id }, data })] *)
Definition comment_update (id : Z) (f : Comment → Comment) : Tx Comment :=
  λ d, match comments d !! id with
       | Some c => (Ok (f c), set_comments (insert id (f c)) d)
       | None => (Err (PrismaError P2025), d)
       end.

(** [commentLike.findUnique({ where: { userId_commentId } })] *)
Definition commentLike_findUnique (userId commentId : Z) (d : DB) : option Z :=
  commentLikes d !! (userId, commentId).

(** [commentLike.create({ data: { userId, commentId } })] *)
Definition commentLike_create (userId commentId now : Z) : Tx unit :=
  λ d, if bool_decide (is_Some (commentLikes d !! (userId, commentId)))
       then (Err (PrismaError P2002), d)
       else if bool_decide (comments d !! commentId = None)
       then (Err (PrismaError P2003), d)
       else (Ok tt, set_commentLikes (insert (userId, commentId) now) d).

(** [commentLike.delete({ where: { userId_commentId } })] *)
Definition commentLike_delete (userId commentId : Z) : Tx unit :=
  λ d, match commentLikes d !! (userId, commentId) with
       | Some _ => (Ok tt, set_commentLikes (delete (userId, commentId)) d)
       | None => (Err (PrismaError P2025), d)
       end.

Definition review_with_likeCount (v : Z) (r : Review) : Review :=
  mkReview (review_userId r) (review_bookId r) (review_title r) (review_content r)
           (review_rating r) v (review_commentCount r)
           (review_createdAt r) (review_updatedAt r) (review_deletedAt r).
Definition review_with_commentCount (v : Z) (r : Review) : Review :=
  mkReview (review_userId r) (review_bookId r) (review_title r) (review_content r)
           (review_rating r) (review_likeCount r) v
           (review_createdAt r) (review_updatedAt r) (review_deletedAt r).
Definition review_with_updatedAt (v : Z) (r : Review) : Review :=
  mkReview (review_userId r) (review_bookId r) (review_title r) (review_content r)
           (review_rating r) (review_likeCount r) (review_commentCount r)
           (review_createdAt r) v (review_deletedAt r).
Definition review_with_deletedAt (v : option Z) (r : Review) : Review :=
  mkReview (review_userId r) (review_bookId r) (review_title r) (review_content r)
           (review_rating r) (review_likeCount r) (review_commentCount r)
           (review_createdAt r) (review_updatedAt r) v.
Definition comment_with_likeCount (v : Z) (c : Comment) : Comment :=
  mkComment (comment_reviewId c) (comment_userId c) (comment_content c) v
            (comment_createdAt c) (comment_updatedAt c) (comment_deletedAt c).
Definition comment_with_updatedAt (v : Z) (c : Comment) : Comment :=
  mkComment (comment_reviewId c) (comment_userId c) (comment_content c)
            (comment_likeCount c) (comment_createdAt c) v (comment_deletedAt c).
Definition comment_with_deletedAt (v : option Z) (c : Comment) : Comment :=
  mkComment (comment_reviewId c) (comment_userId c) (comment_content c)
            (comment_likeCount c) (comment_createdAt c) (comment_updatedAt c) v.
Definition book_with_rating (count : Z) (avg : Qc) (b : Book) : Book :=
  mkBook (book_title b) (book_price b) (book_currency b) (book_stock b)
         avg count (book_deletedAt b).

(** [content.trim()], for the white space of the ASCII range. *)
Definition isSpace (c : Ascii.ascii) : bool :=
  let n := Ascii.nat_of_ascii c in
  bool_decide (n = 32 ∨ 9 ≤ n ≤ 13)%nat.

Fixpoint trimStart (s : string) : string :=
  match s with
  | String c s' => if isSpace c then trimStart s' else s
  | EmptyString => EmptyString
  end.

Fixpoint trimEnd (s : string) : string :=
  match s with
  | String c s' =>
      match trimEnd s' with
      | EmptyString => if isSpace c then EmptyString else String c EmptyString
      | t => String c t
      end
  | EmptyString => EmptyString
  end.

Definition trim (s : string) : string := trimEnd (trimStart s).

(** [!content || typeof content !== "string" || content.trim().length < 1];
    a request value that is absent or not a string is [None]. *)
Definition invalidContent (content : option string) : bool :=
  match content with
  | None => true
  | Some s => bool_decide (String.length (trim s) < 1)%nat
  end.

(** [!Number.isInteger(r) || r < 1 || r > 5] *)
Definition parseRating (rating : JsNumber) : Result Z :=
  match rating with
  | JsInt r =>
      if bool_decide (r < 1) || bool_decide (r > 5)
      then Err (ApiError 400 VALIDATION_FAILED)
      else Ok r
  | JsNotInteger => Err (ApiError 400 VALIDATION_FAILED)
  end.

(** [title != null && (typeof title !== "string" || title.length > 100)],
    for a title that is a string when present. *)
Definition invalidTitle (title : option string) : bool :=
  match title with
  | None => false
  | Some s => bool_decide (100 < String.length s)%nat
  end.

(** ** review.controller.ts *)

(** The two statements that close every review transaction: the aggregate
    over the non-deleted reviews of the book, and the update of
    [reviewCount] and [avgRating] with [agg._count.id ?? 0] and
    [agg._avg.rating ?? 0]. *)
Definition updateBookRating (bookId : Z) : Tx unit :=
  agg <- gets (review_aggregate bookId) ;;
  book_update bookId (book_with_rating (agg_count agg) (default 0%Qc (agg_avg agg))).

(** [recomputeBookRating], the helper at the head of the file: the same two
    statements, each on the global client.  No controller calls it. *)
Definition recomputeBookRating (bookId : Z) : Handler unit :=
  agg <- query (review_aggregate bookId) ;;
  prisma (book_update bookId
            (book_with_rating (agg_count agg) (default 0%Qc (agg_avg agg)))).

(** [catch (err) { if (err?.code === "P2002") return next(new ApiError(409, ..)) }] *)
Definition catchP2002 {A : Type} (m : Handler A) : Handler A :=
  λ st, match m st with
        | (Err (PrismaError P2002), st') => (Err (ApiError 409 DUPLICATE_RESOURCE), st')
        | r => r
        end.

Record ReviewBody : Type := mkReviewBody {
  body_rating : option JsNumber;
  body_title : option string;
  body_content : option string
}.

(** POST /reviews/books/:bookId, body { rating, title?, content }.  The
    payload is the id and [createdAt] of the new review. *)
Definition createReviewForBookController
    (bookIdParam : JsNumber) (authUser : option Z) (body : ReviewBody) (now : Z)
  : Handler (Z * Z) :=
  catchP2002 (
    bookId <- liftR (parseId bookIdParam) ;;
    userId <- requireAuth authUser ;;
    throwIf (invalidContent (body_content body)) (ApiError 400 VALIDATION_FAILED) ;;
    r <- liftR (parseRating (default JsNotInteger (body_rating body))) ;;
    throwIf (invalidTitle (body_title body)) (ApiError 400 VALIDATION_FAILED) ;;
    book <- query (book_findFirstLive bookId) ;;
    match book with
    | None => throw (ApiError 404 RESOURCE_NOT_FOUND)
    | Some _ =>
        created <- transaction (
          review <- review_create
            (mkReview userId bookId (body_title body)
                      (trim (default ""%string (body_content body)))
                      r 0 0 now now None) ;;
          updateBookRating bookId ;;
          ret review) ;;
        ret (created.1, review_createdAt created.2)
    end).



(** What DELETE /reviews/:id answers: the review was deleted before, at the
    time given, or it has been soft-deleted now. *)
Inductive Deletion : Type :=
  | AlreadyDeleted (id : Z) (deletedAt : Z)
  | Deleted (id : Z) (deletedAt : option Z).

(** DELETE /reviews/:id *)
Definition deleteReviewController (idParam : JsNumber) (authUser : option Z) (now : Z)
  : Handler Deletion :=
  reviewId <- liftR (parseId idParam) ;;
  userId <- requireAuth authUser ;;
  existing <- query (review_findUnique reviewId) ;;
  match existing with
  | None => throw (ApiError 404 RESOURCE_NOT_FOUND)
  | Some existing =>
      throwIf (bool_decide (review_userId existing ≠ userId)) (ApiError 403 FORBIDDEN) ;;
      match review_deletedAt existing with
      | Some at_ => ret (AlreadyDeleted reviewId at_)
      | None =>
          result <- transaction (
            r <- review_update reviewId
                   (λ r, review_with_updatedAt now (review_with_deletedAt (Some now) r)) ;;
            reviewLike_deleteMany reviewId ;;
            updateBookRating (review_bookId existing) ;;
            ret r) ;;
          ret (Deleted reviewId (review_deletedAt result))
      end
  end.

(** POST /reviews/:id/like *)
Definition likeReviewController (idParam : JsNumber) (authUser : option Z) (now : Z)
  : Handler unit :=
  reviewId <- liftR (parseId idParam) ;;
  userId <- requireAuth authUser ;;
  review <- query (review_findFirstLive reviewId) ;;
  match review with
  | None => throw (ApiError 404 RESOURCE_NOT_FOUND)
  | Some _ =>
      transaction (
        exists_ <- gets (reviewLike_findUnique userId reviewId) ;;
        match exists_ with
        | Some _ => ret tt
        | None =>
            reviewLike_create userId reviewId now ;;
            review_update reviewId
              (λ r, review_with_updatedAt now
                      (review_with_likeCount (review_likeCount r + 1) r)) ;;
            ret tt
        end)
  end.

(** DELETE /reviews/:id/like *)
Definition unlikeReviewController (idParam : JsNumber) (authUser : option Z) (now : Z)
  : Handler unit :=
  reviewId <- liftR (parseId idParam) ;;
  userId <- requireAuth authUser ;;
  transaction (
    exists_ <- gets (reviewLike_findUnique userId reviewId) ;;
    match exists_ with
    | None => ret tt
    | Some _ =>
        reviewLike_delete userId reviewId ;;
        review_update reviewId
          (λ r, review_with_updatedAt now
                  (review_with_likeCount (review_likeCount r - 1) r)) ;;
        ret tt
    end).

(** ** comment.controller.ts *)

(** POST /comments/reviews/:reviewId, body { content }.  The payload is the
    id and [createdAt] of the new comment. *)
Definition createCommentController
    (reviewIdParam : JsNumber) (authUser : option Z) (content : option string) (now : Z)
  : Handler (Z * Z) :=
  reviewId <- liftR (parseId reviewIdParam) ;;
  userId <- requireAuth authUser ;;
  throwIf (invalidContent content) (ApiError 400 VALIDATION_FAILED) ;;
  review <- query (review_findFirstLive reviewId) ;;
  match review with
  | None => throw (ApiError 404 RESOURCE_NOT_FOUND)
  | Some _ =>
      created <- prisma (comment_create
        (mkComment reviewId userId (trim (default ""%string content)) 0 now now None)) ;;
      prisma (review_update reviewId
        (λ r, review_with_updatedAt now
                (review_with_commentCount (review_commentCount r + 1) r))) ;;
      ret (created.1, comment_createdAt created.2)
  end.

(** DELETE /comments/:id *)
Definition deleteCommentController (idParam : JsNumber) (authUser : option Z) (now : Z)
  : Handler Deletion :=
  commentId <- liftR (parseId idParam) ;;
  userId <- requireAuth authUser ;;
  existing <- query (comment_findUnique commentId) ;;
  match existing with
  | None => throw (ApiError 404 RESOURCE_NOT_FOUND)
  | Some existing =>
      throwIf (bool_decide (comment_userId existing ≠ userId)) (ApiError 403 FORBIDDEN) ;;
      match comment_deletedAt existing with
      | Some at_ => ret (AlreadyDeleted commentId at_)
      | None =>
          deleted <- prisma (comment_update commentId
            (λ c, comment_with_updatedAt now (comment_with_deletedAt (Some now) c))) ;;
          prisma (review_update (comment_reviewId existing)
            (λ r, review_with_updatedAt now
                    (review_with_commentCount (review_commentCount r - 1) r))) ;;
          ret (Deleted commentId (comment_deletedAt deleted))
      end
  end.

(** POST /comments/:id/like *)
Definition likeCommentController (idParam : JsNumber) (authUser : option Z) (now : Z)
  : Handler unit :=
  commentId <- liftR (parseId idParam) ;;
  userId <- requireAuth authUser ;;
  transaction (
    exists_ <- gets (commentLike_findUnique userId commentId) ;;
    match exists_ with
    | Some _ => ret tt
    | None =>
        commentLike_create userId commentId now ;;
        comment_update commentId
          (λ c, comment_with_updatedAt now
                  (comment_with_likeCount (comment_likeCount c + 1) c)) ;;
        ret tt
    end).

(** DELETE /comments/:id/like *)
Definition unlikeCommentController (idParam : JsNumber) (authUser : option Z) (now : Z)
  : Handler unit :=
  commentId <- liftR (parseId idParam) ;;
  userId <- requireAuth authUser ;;
  transaction (
    exists_ <- gets (commentLike_findUnique userId commentId) ;;
    match exists_ with
    | None => ret tt
    | Some _ =>
        commentLike_delete userId commentId ;;
        comment_update commentId
          (λ c, comment_with_updatedAt now
                  (comment_with_likeCount (comment_likeCount c - 1) c)) ;;
        ret tt
    end).

(** ** Sort and page parameters of the list endpoints *)

(** [s.split(sep)] for a separator of one character. *)
Fixpoint splitOn (sep : Ascii.ascii) (s : string) : list string :=
  match s with
  | EmptyString => [EmptyString]
  | String c s' =>
      if Ascii.eqb c sep then EmptyString :: splitOn sep s'
      else match splitOn sep s' with
           | piece :: rest => String c piece :: rest
           | [] => [String c EmptyString]
           end
  end.

(** [s.toUpperCase()], for the letters of the ASCII range. *)
Definition toUpper (c : Ascii.ascii) : Ascii.ascii :=
  let n := Ascii.nat_of_ascii c in
  if bool_decide (97 ≤ n ≤ 122)%nat then Ascii.ascii_of_nat (n - 32) else c.

Fixpoint toUpperCase (s : string) : string :=
  match s with
  | String c s' => String (toUpper c) (toUpperCase s')
  | EmptyString => EmptyString
  end.

(** The direction of an [orderBy], "asc" or "desc" in the source. *)
Inductive SortDir : Type := Asc | Desc.

(** [sortDir.toUpperCase()] *)
Definition dirName (dir : SortDir) : string :=
  match dir with
  | Asc => "ASC"
  | Desc => "DESC"
  end.

(** The lines every list endpoint starts with:
    [const [rawField = "", rawDir] = sortQuery.split(",")],
    [rawDir?.toUpperCase() === "ASC" ? "asc" : "desc"] and
    [ALLOWED.includes(rawField) ? rawField : fallback]. *)
Definition parseSort (allowed : list string) (fallback : string) (sortQuery : string)
  : string * SortDir :=
  let parts := splitOn ","%char sortQuery in
  let rawField := default ""%string (parts !! 0%nat) in
  let rawDir := parts !! 1%nat in
  let sortDir :=
    if bool_decide (toUpperCase <$> rawDir = Some "ASC"%string) then Asc else Desc in
  let sortField := if bool_decide (rawField ∈ allowed) then rawField else fallback in
  (sortField, sortDir).

(** [`${sortField},${sortDir.toUpperCase()}`] *)
Definition sortName (sort : string * SortDir) : string :=
  sort.1 +:+ "," +:+ dirName sort.2.

(** [orderBy: { [sortField]: sortDir }] on a column whose values are
    compared as integers. *)
Definition byKey {A : Type} (key : A → Z) (dir : SortDir) (a b : A) : Prop :=
  match dir with
  | Asc => key a ≤ key b
  | Desc => key b ≤ key a
  end.

Global Instance byKey_dec {A : Type} (key : A → Z) dir a b : Decision (byKey key dir a b).
Proof. destruct dir; simpl; apply _. Defined.

Definition orderBy {A : Type} (key : A → Z) (dir : SortDir) (l : list A) : list A :=
  merge_sort (byKey key dir) l.

(** The envelope of a paged answer. *)
Record Page (A : Type) : Type := mkPage {
  pg_content : list A;
  pg_page : Z;
  pg_size : Z;
  pg_totalElements : Z;
  pg_totalPages : Z;
  pg_sort : string
}.
Arguments mkPage {A} _ _ _ _ _ _.
Arguments pg_content {A} _.
Arguments pg_page {A} _.
Arguments pg_size {A} _.
Arguments pg_totalElements {A} _.
Arguments pg_totalPages {A} _.
Arguments pg_sort {A} _.

(** A read on the global client that can throw. *)
Definition queryR {A : Type} (f : DB → Result A) : Handler A :=
  λ st, (f (db st), st).

(** [include: { relation }] for a required relation: a row whose related
    row is missing makes the client throw. *)
Fixpoint includeRequired {A B : Type} (find : A → option B) (l : list A)
  : Result (list (A * B)) :=
  match l with
  | [] => Ok []
  | a :: l' =>
      match find a, includeRequired find l' with
      | Some b, Ok rest => Ok ((a, b) :: rest)
      | None, _ => Err (PrismaError InconsistentResult)
      | _, Err e => Err e
      end
  end.

(** ** order.controller.ts: reading orders *)

Record OrderSummary : Type := mkOrderSummary {
  os_id : Z;
  os_status : OrderStatus;
  os_paymentStatus : PaymentStatus;
  os_totalAmount : Z;
  os_placedAt : option Z;
  os_createdAt : Z;
  os_updatedAt : Z
}.

Definition toOrderSummary (r : Z * Order) : OrderSummary :=
  mkOrderSummary r.1 (order_status r.2) (order_paymentStatus r.2) (order_totalAmount r.2)
                 (order_placedAt r.2) (order_createdAt r.2) (order_updatedAt r.2).

(** The position of a status in the ENUM of the column, by which the store
    orders it. *)
Definition statusIndex (s : OrderStatus) : Z :=
  match s with
  | PENDING => 1
  | PAID => 2
  | SHIPPED => 3
  | COMPLETED => 4
  | CANCELLED => 5
  | REFUNDED => 6
  end.

Definition orderSortFields : list string := ["createdAt"; "totalAmount"; "status"]%string.

Definition orderSortKey (field : string) (r : Z * Order) : Z :=
  if bool_decide (field = "totalAmount"%string) then order_totalAmount r.2
  else if bool_decide (field = "status"%string) then statusIndex (order_status r.2)
  else order_createdAt r.2.

(** [order.findMany({ where: { userId } })], before ordering and paging. *)
Definition order_findManyOfUser (userId : Z) (d : DB) : list (Z * Order) :=
  filter (λ r, order_userId r.2 = userId) (rows (orders d)).

(** GET /orders.  [qpage] and [qsize] are the integer query parameters and
    [qsort] the string one, [None] when absent. *)
Definition listOrdersController (authUser : option Z) (qpage qsize : option Z)
    (qsort : option string) : Handler (Page OrderSummary) :=
  userId <- requireAuth authUser ;;
  let page := Z.max (default 1 qpage) 1 in
  let size := Z.min (Z.max (default 20 qsize) 1) 100 in
  let sort := parseSort orderSortFields "createdAt" (default "createdAt,DESC"%string qsort) in
  total <- query (λ d, Z.of_nat (length (order_findManyOfUser userId d))) ;;
  orders <- query (λ d, paginate page size
                          (orderBy (orderSortKey sort.1) sort.2
                                   (order_findManyOfUser userId d))) ;;
  ret (mkPage (toOrderSummary <$> orders) (page - 1) size total
              ((total + size - 1) / size) (sortName sort)).

(** The order items of one order, in primary-key order. *)
Definition orderItem_ofOrder (orderId : Z) (d : DB) : list (Z * OrderItem) :=
  omap (λ r, if bool_decide (r.1.1 = orderId) then Some (r.1.2, r.2) else None)
       (rows2 (orderItems d)).

(** [order.findFirst({ where: { id, userId },
    include: { items: { include: { book } } } })] *)
Definition order_findFirstOfUser (id userId : Z) (d : DB)
  : Result (option (Order * list (Z * OrderItem * Book))) :=
  match orders d !! id with
  | Some o =>
      if bool_decide (order_userId o = userId)
      then match includeRequired (λ r, books d !! r.1) (orderItem_ofOrder id d) with
           | Ok items => Ok (Some (o, items))
           | Err e => Err e
           end
      else Ok None
  | None => Ok None
  end.

(** A line of the order detail.  [bookTitle] is the snapshot, which the
    column makes non-null; of the [book] object the id is kept. *)
Record OrderLine : Type := mkOrderLine {
  ol_bookId : Z;
  ol_bookTitle : string;
  ol_quantity : Z;
  ol_unitPrice : Z;
  ol_lineTotal : Z;
  ol_book : Z
}.

Definition toOrderLine (it : Z * OrderItem * Book) : OrderLine :=
  mkOrderLine it.1.1 (oi_bookTitleSnapshot it.1.2) (oi_quantity it.1.2)
              (oi_unitPrice it.1.2) (oi_unitPrice it.1.2 * oi_quantity it.1.2) it.1.1.

Record OrderDetail : Type := mkOrderDetail {
  od_id : Z;
  od_status : OrderStatus;
  od_paymentStatus : PaymentStatus;
  od_totalAmount : Z;
  od_placedAt : option Z;
  od_createdAt : Z;
  od_updatedAt : Z;
  od_items : list OrderLine
}.

(** GET /orders/:id *)
Definition getOrderDetailController (idParam : JsNumber) (authUser : option Z)
  : Handler OrderDetail :=
  userId <- requireAuth authUser ;;
  orderId <- liftR (parseId idParam) ;;
  order <- queryR (order_findFirstOfUser orderId userId) ;;
  match order with
  | None => throw (ApiError 404 RESOURCE_NOT_FOUND)
  | Some (o, items) =>
      ret (mkOrderDetail orderId (order_status o) (order_paymentStatus o)
                         (order_totalAmount o) (order_placedAt o) (order_createdAt o)
                         (order_updatedAt o) (toOrderLine <$> items))
  end.

(** ** review.controller.ts: reading reviews *)

(** A review as the list endpoints return it; of the [user] object the id
    is kept. *)
Record ReviewView : Type := mkReviewView {
  rv_id : Z;
  rv_rating : Z;
  rv_title : option string;
  rv_content : string;
  rv_likeCount : Z;
  rv_commentCount : Z;
  rv_createdAt : Z;
  rv_updatedAt : Z;
  rv_userId : Z
}.

Definition toReviewView (r : Z * Review) : ReviewView :=
  mkReviewView r.1 (review_rating r.2) (review_title r.2) (review_content r.2)
               (review_likeCount r.2) (review_commentCount r.2)
               (review_createdAt r.2) (review_updatedAt r.2) (review_userId r.2).

Definition reviewSortFields : list string := ["likeCount"; "rating"; "createdAt"]%string.

Definition reviewSortKey (field : string) (r : Z * Review) : Z :=
  if bool_decide (field = "rating"%string) then review_rating r.2
  else if bool_decide (field = "createdAt"%string) then review_createdAt r.2
  else review_likeCount r.2.

(** [review.findMany({ where: { bookId, deletedAt: null } })], before
    ordering and paging. *)
Definition review_findManyLive (bookId : Z) (d : DB) : list (Z * Review) :=
  filter (liveReviewOf bookId) (rows (reviews d)).

Record ReviewList : Type := mkReviewList {
  rl_bookId : Z;
  rl_bookTitle : string;
  rl_page : Page ReviewView
}.

(** GET /reviews/books/:bookId *)
Definition listReviewsForBookController (bookIdParam : JsNumber) (qpage qsize : option Z)
    (qsort : option string) : Handler ReviewList :=
  bookId <- liftR (parseId bookIdParam) ;;
  let page := Z.max (default 1 qpage) 1 in
  let size := Z.min (Z.max (default 20 qsize) 1) 100 in
  let sort := parseSort reviewSortFields "likeCount" (default "likeCount,DESC"%string qsort) in
  book <- query (book_findFirstLive bookId) ;;
  match book with
  | None => throw (ApiError 404 RESOURCE_NOT_FOUND)
  | Some book =>
      total <- query (λ d, Z.of_nat (length (review_findManyLive bookId d))) ;;
      reviews <- query (λ d, paginate page size
                               (orderBy (reviewSortKey sort.1) sort.2
                                        (review_findManyLive bookId d))) ;;
      ret (mkReviewList bookId (book_title book)
             (mkPage (toReviewView <$> reviews) (page - 1) size total
                     ((total + size - 1) / size) (sortName sort)))
  end.

(** [review.findMany({ where: { deletedAt: null } })], before ordering. *)
Definition review_findManyAllLive (d : DB) : list (Z * Review) :=
  filter (λ r, review_deletedAt r.2 = None) (rows (reviews d)).

(** An item of the top list: the review with the id of its user and the id
    and title of its book. *)
Record TopReview : Type := mkTopReview {
  tr_id : Z;
  tr_rating : Z;
  tr_title : option string;
  tr_content : string;
  tr_likeCount : Z;
  tr_commentCount : Z;
  tr_createdAt : Z;
  tr_userId : Z;
  tr_bookId : Z;
  tr_bookTitle : string
}.

Definition toTopReview (it : Z * Review * Book) : TopReview :=
  mkTopReview it.1.1 (review_rating it.1.2) (review_title it.1.2) (review_content it.1.2)
              (review_likeCount it.1.2) (review_commentCount it.1.2)
              (review_createdAt it.1.2) (review_userId it.1.2)
              (review_bookId it.1.2) (book_title it.2).

Record TopReviews : Type := mkTopReviews {
  top_limit : Z;
  top_sort : string;
  top_items : list TopReview
}.

(** GET /reviews/top.  [qlimit] is the integer query parameter. *)
Definition getTopReviewsController (qlimit : option Z) (qsort : option string)
  : Handler TopReviews :=
  let limit := Z.min (Z.max (default 10 qlimit) 1) 50 in
  let sort := parseSort reviewSortFields "likeCount" (default "likeCount,DESC"%string qsort) in
  items <- queryR (λ d, includeRequired (λ r, books d !! review_bookId r.2)
                          (take (Z.to_nat limit)
                                (orderBy (reviewSortKey sort.1) sort.2
                                         (review_findManyAllLive d)))) ;;
  ret (mkTopReviews limit (sortName sort) (toTopReview <$> items)).

(** ** comment.controller.ts: reading and editing comments *)

(** A comment as the list endpoint returns it; of the [user] object the id
    is kept. *)
Record CommentView : Type := mkCommentView {
  cv_id : Z;
  cv_content : string;
  cv_likeCount : Z;
  cv_createdAt : Z;
  cv_updatedAt : Z;
  cv_userId : Z
}.

Definition toCommentView (r : Z * Comment) : CommentView :=
  mkCommentView r.1 (comment_content r.2) (comment_likeCount r.2)
                (comment_createdAt r.2) (comment_updatedAt r.2) (comment_userId r.2).

(** [where: { reviewId, deletedAt: null }] *)
Definition liveCommentOf (reviewId : Z) (r : Z * Comment) : Prop :=
  comment_reviewId r.2 = reviewId ∧ comment_deletedAt r.2 = None.

Global Instance liveCommentOf_dec reviewId r : Decision (liveCommentOf reviewId r).
Proof. unfold liveCommentOf. apply _. Defined.

(** [comment.findMany({ where: { reviewId, deletedAt: null },
    orderBy: { createdAt: "asc" } })] *)
Definition comment_findManyLive (reviewId : Z) (d : DB) : list (Z * Comment) :=
  orderBy (λ r, comment_createdAt r.2) Asc
          (filter (liveCommentOf reviewId) (rows (comments d))).

(** GET /comments/reviews/:reviewId *)
Definition listCommentsController (reviewIdParam : JsNumber) : Handler (list CommentView) :=
  reviewId <- liftR (parseId reviewIdParam) ;;
  comments <- query (comment_findManyLive reviewId) ;;
  ret (toCommentView <$> comments).

Definition comment_with_content (v : string) (c : Comment) : Comment :=
  mkComment (comment_reviewId c) (comment_userId c) v (comment_likeCount c)
            (comment_createdAt c) (comment_updatedAt c) (comment_deletedAt c).

(** PATCH /comments/:id, body { content }.  The payload is the id and
    [updatedAt] of the comment. *)
Definition updateCommentController
    (idParam : JsNumber) (authUser : option Z) (content : option string) (now : Z)
  : Handler (Z * Z) :=
  commentId <- liftR (parseId idParam) ;;
  userId <- requireAuth authUser ;;
  throwIf (invalidContent content) (ApiError 400 VALIDATION_FAILED) ;;
  existing <- query (comment_findUnique commentId) ;;
  match existing with
  | None => throw (ApiError 404 RESOURCE_NOT_FOUND)
  | Some existing =>
      throwIf (bool_decide (is_Some (comment_deletedAt existing)))
              (ApiError 404 RESOURCE_NOT_FOUND) ;;
      throwIf (bool_decide (comment_userId existing ≠ userId)) (ApiError 403 FORBIDDEN) ;;
      updated <- prisma (comment_update commentId
        (λ c, comment_with_updatedAt now
                (comment_with_content (trim (default ""%string content)) c))) ;;
      ret (commentId, comment_updatedAt updated)
  end.

(** ** middlewares/errorHandler.ts and middlewares/auth.ts *)

(** The answer to a failed request: the status and the code, [None] for
    INTERNAL_SERVER_ERROR. *)
Record ErrorResponse : Type := mkErrorResponse {
  er_status : Z;
  er_code : option ErrorCode
}.

(** An [ApiError] is answered with its own status and code, anything else
    with 500. *)
Definition errorHandler (err : Failure) : ErrorResponse :=
  match err with
  | ApiError status code => mkErrorResponse status (Some code)
  | PrismaError _ => mkErrorResponse 500 None
  end.

(** [s.startsWith(p)] *)
Fixpoint startsWith (p s : string) : bool :=
  match p, s with
  | EmptyString, _ => true
  | String a p', String b s' => Ascii.eqb a b && startsWith p' s'
  | String _ _, EmptyString => false
  end.

(** [extractBearerToken]: the header is [None] when the request has none. *)
Definition extractBearerToken (authHeader : option string) : Result string :=
  match authHeader with
  | None => Err (ApiError 401 UNAUTHORIZED)
  | Some h =>
      if bool_decide (h = ""%string) then Err (ApiError 401 UNAUTHORIZED)
      else if negb (startsWith "Bearer " h) then Err (ApiError 401 UNAUTHORIZED)
      else
        match splitOn " "%char h with
        | _ :: token :: _ =>
            if bool_decide (token = ""%string) then Err (ApiError 401 UNAUTHORIZED)
            else Ok token
        | _ => Err (ApiError 401 UNAUTHORIZED)
        end
  end.

(** * Notions used in the statements *)

(** A request value that [parseQuantity] accepts. *)
Definition quantityInRange (v : JsNumber) : Prop :=
  ∃ q, v = JsInt q ∧ 1 ≤ q ≤ 999.

(** The sum of [unitPrice * quantity] over the lines of a response. *)
Definition lineSum (lines : list CartLine) : Z :=
  foldr (λ l acc, line_unitPrice l * line_quantity l + acc) 0 lines.

(** The same sum over every item of a cart. *)
Definition cartTotal (cartId : Z) (d : DB) : Z :=
  foldr (λ r acc, item_unitPrice r.2 * item_quantity r.2 + acc) 0
        (cartItem_ofCart cartId d).

(** The number of non-deleted comments of a review, which
    [review.commentCount] denormalizes. *)
Definition liveCommentCount (reviewId : Z) (d : DB) : Z :=
  Z.of_nat (length (filter (λ r, comment_reviewId r.2 = reviewId ∧
                                 comment_deletedAt r.2 = None)
                           (rows (comments d)))).


Definition sumZ (l : list Z) : Z := foldr Z.add 0 l.



(** A relation between the database before and after holds for every
    successful run of a transaction body, and for every run of a handler,
    failed or not. *)
Definition txPreserves {A : Type} (R : relation DB) (t : Tx A) : Prop :=
  ∀ d a d', t d = (Ok a, d') → R d d'.

Definition hPreserves {A : Type} (R : relation DB) (h : Handler A) : Prop :=
  ∀ st r st', h st = (r, st') → R (db st) (db st').

(** A column of the state that a computation leaves alone. *)
Definition keeps {T : Type} (f : DB → T) : relation DB := λ d d', f d' = f d.

(** An item passes the validation of the checkout: its book is not
    deleted and has the stock for the quantity. *)
Definition validItem (it : CartItemWithBook) : Prop :=
  book_deletedAt (cib_book it) = None ∧
  item_quantity (cib_item it) ≤ book_stock (cib_book it).

Global Instance validItem_dec it : Decision (validItem it).
Proof. unfold validItem. apply _. Defined.

(** A row of the cart joined with the row of its book. *)
Definition joined (d : DB) (r : Z * CartItem) (it : CartItemWithBook) : Prop :=
  cib_bookId it = r.1 ∧ cib_item it = r.2 ∧ books d !! r.1 = Some (cib_book it).

(** The order item written for a cart item. *)
Definition orderItemOf (it : CartItemWithBook) : OrderItem :=
  mkOrderItem (item_quantity (cib_item it)) (item_unitPrice (cib_item it))
              (book_title (cib_book it)).

(** [cart.findMany({ where: { userId, status: "ACTIVE" } })]: the query of
    the invariant on carts. *)
Definition cart_findManyActive (userId : Z) (d : DB) : list (Z * Cart) :=
  filter (λ r, cart_userId r.2 = userId ∧ cart_status r.2 = ACTIVE) (rows (carts d)).

Definition atMostOneActiveCart (d : DB) : Prop :=
  ∀ u, (length (cart_findManyActive u d) ≤ 1)%nat.

(** The same invariant, row by row: two ACTIVE carts of one user are the
    same cart. *)
Definition oneActive (m : gmap Z Cart) : Prop :=
  ∀ i j ci cj,
    m !! i = Some ci → m !! j = Some cj →
    cart_status ci = ACTIVE → cart_status cj = ACTIVE →
    cart_userId ci = cart_userId cj → i = j.

Definition keepsOneActive : relation DB :=
  λ d d', oneActive (carts d) → oneActive (carts d').

(** The requests of the cart and order routes, and a server that handles
    them one after the other. *)
Inductive CartRequest : Type :=
  | ListCart (authUser : option Z) (qpage qsize : option Z) (now : Z)
  | AddItem (authUser : option Z) (bookId quantity : JsNumber) (now : Z)
  | UpdateItem (authUser : option Z) (bookId quantity : JsNumber) (now : Z)
  | RemoveItem (authUser : option Z) (bookId : JsNumber) (now : Z)
  | Checkout (authUser : option Z) (now : Z).

Definition handle (r : CartRequest) (st : Store) : Store :=
  match r with
  | ListCart authUser qpage qsize now => (listCartController authUser qpage qsize now st).2
  | AddItem authUser bookId quantity now =>
      (addCartItemController authUser bookId quantity now st).2
  | UpdateItem authUser bookId quantity now =>
      (updateCartItemController authUser bookId quantity now st).2
  | RemoveItem authUser bookId now => (removeCartItemController authUser bookId now st).2
  | Checkout authUser now => (createOrderFromCartController authUser now st).2
  end.

Definition serve (rs : list CartRequest) (st : Store) : Store :=
  foldl (λ st r, handle r st) st rs.

(** The stock of a book (0 for a book that does not exist), and the copies
    of it that have been ordered: the sum of the quantities of its order
    items. *)
Definition stockOf (b : Z) (d : DB) : Z :=
  default 0 (book_stock <$> books d !! b).

Definition orderedQty (b : Z) (d : DB) : Z :=
  sumZ ((λ r, oi_quantity r.2) <$> filter (λ r, r.1.2 = b) (map_to_list (orderItems d))).

(** Copies neither appear nor vanish: what leaves the stock is ordered. *)
Definition conserved : relation DB :=
  λ d d', ∀ b, stockOf b d' + orderedQty b d' = stockOf b d + orderedQty b d.

Definition stockNonNegative (d : DB) : Prop :=
  ∀ b bk, books d !! b = Some bk → 0 ≤ book_stock bk.

(** The database after a first like of review [id] by [u]. *)
Definition likedReview (u id now : Z) (r : Review) (d : DB) : DB :=
  set_reviews
    (insert id (review_with_updatedAt now (review_with_likeCount (review_likeCount r + 1) r)))
    (set_reviewLikes (insert (u, id) now) d).

(** The database after a first like of comment [id] by [u]. *)
Definition likedComment (u id now : Z) (c : Comment) (d : DB) : DB :=
  set_comments
    (insert id (comment_with_updatedAt now
                  (comment_with_likeCount (comment_likeCount c + 1) c)))
    (set_commentLikes (insert (u, id) now) d).

(** ** Sample data: the scenario of the specification *)

(** Book #1: stock 5, price 10000. *)
Definition sampleBook : Book := mkBook "Dune" 10000 "KRW" 5 0%Qc 0 None.

(** A second book, with one copy left. *)
Definition scarceBook : Book := mkBook "Emma" 7000 "KRW" 1 0%Qc 0 None.

Definition sampleDB : DB :=
  set_books (λ _, {[ 1 := sampleBook; 2 := scarceBook ]}) emptyDB.

Definition sampleStore : Store := mkStore sampleDB [].

(** The store after user 7 has put three copies of book #1 in the cart. *)
Definition storeWithCart : Store :=
  (addCartItemController (Some 7) (JsInt 1) (JsInt 3) 100 sampleStore).2.

(** The same store after the price of book #1 has been raised to 12000. *)
Definition repricedStore : Store :=
  mkStore (set_books (insert 1 (mkBook "Dune" 12000 "KRW" 5 0%Qc 0 None)) (db storeWithCart))
          (commits storeWithCart).

(** The cart of user 7 with a second line, one copy of book #2. *)
Definition twoLineStore : Store :=
  (addCartItemController (Some 7) (JsInt 2) (JsInt 1) 150 storeWithCart).2.

(** The sample store after user 7 has reviewed book #1 with five stars. *)
Definition reviewedStore : Store :=
  (createReviewForBookController (JsInt 1) (Some 7)
     (mkReviewBody (Some (JsInt 5)) None (Some "A classic."%string)) 400 sampleStore).2.

(** ... and after user 8 has commented on that review. *)
Definition commentedStore : Store :=
  (createCommentController (JsInt 1) (Some 8) (Some "Agreed."%string) 500 reviewedStore).2.

(** ... and has liked the review. *)
Definition likedStore : Store :=
  (likeReviewController (JsInt 1) (Some 8) 600 commentedStore).2.

(** The commented store after user 8 has deleted the comment, and after
    user 7 has deleted the review. *)
Definition deletedCommentStore : Store :=
  (deleteCommentController (JsInt 1) (Some 8) 800 commentedStore).2.

Definition deletedReviewStore : Store :=
  (deleteReviewController (JsInt 1) (Some 7) 800 commentedStore).2.

(** The two-line cart after the last copy of book #2 has gone. *)
Definition shortStockStore : Store :=
  mkStore (set_books (insert 2 (book_with_stock 0 scarceBook)) (db twoLineStore))
          (commits twoLineStore).

(** A session: user 7 fills a cart and checks out, then asks for more of
    book #1 than is left and tries to check out an empty cart. *)
Definition sampleRequests : list CartRequest :=
  [ AddItem (Some 7) (JsInt 1) (JsInt 3) 100;
    ListCart (Some 8) None None 110;
    Checkout (Some 7) 200;
    AddItem (Some 7) (JsInt 1) (JsInt 3) 300;
    AddItem (Some 7) (JsInt 2) (JsInt 1) 310;
    RemoveItem (Some 7) (JsInt 2) 320;
    Checkout (Some 7) 400 ].

(** * Properties *)

(** ** Facts about tables *)

Lemma elem_of_rows {V : Type} (m : gmap Z V) (i : Z) (x : V) :
  (i, x) ∈ rows m ↔ m !! i = Some x.
Proof.
  unfold rows. rewrite merge_sort_Permutation. apply elem_of_map_to_list.
Qed.

Lemma elem_of_rows2 {V : Type} (m : gmap (Z * Z) V) (k : Z * Z) (x : V) :
  (k, x) ∈ rows2 m ↔ m !! k = Some x.
Proof.
  unfold rows2. rewrite merge_sort_Permutation. apply elem_of_map_to_list.
Qed.

Lemma foldr_max_ge (l : list Z) (k : Z) : k ∈ l → k ≤ foldr Z.max 0 l.
Proof.
  induction l as [|a l IH]; intros Hin.
  - by apply elem_of_nil in Hin.
  - apply elem_of_cons in Hin as [->|Hin]; simpl; [lia|].
    specialize (IH Hin). lia.
Qed.

Lemma nextId_fresh {V : Type} (m : gmap Z V) : m !! nextId m = None.
Proof.
  destruct (m !! nextId m) as [x|] eqn:E; [|done].
  apply elem_of_map_to_list in E.
  assert (nextId m ∈ (map_to_list m).*1) as Hin.
  { apply list_elem_of_fmap. by exists (nextId m, x). }
  apply foldr_max_ge in Hin. unfold nextId in Hin at 1. lia.
Qed.

Lemma cart_findFirstActive_Some (u : Z) (d : DB) (c : Z * Cart) :
  cart_findFirstActive u d = Some c →
  carts d !! c.1 = Some c.2 ∧ cart_userId c.2 = u ∧ cart_status c.2 = ACTIVE.
Proof.
  unfold cart_findFirstActive. intros H. apply find_some in H as [Hin Hp].
  apply bool_decide_eq_true in Hp. split; [|done].
  apply list_elem_of_In in Hin. destruct c. by apply elem_of_rows.
Qed.

Lemma cart_findFirstActive_None (u : Z) (d : DB) :
  cart_findFirstActive u d = None →
  ∀ i c, carts d !! i = Some c → ¬ (cart_userId c = u ∧ cart_status c = ACTIVE).
Proof.
  unfold cart_findFirstActive. intros H i c Hi Hc.
  apply elem_of_rows, list_elem_of_In in Hi.
  pose proof (find_none _ _ H _ Hi) as Hf. simpl in Hf.
  by apply bool_decide_eq_false in Hf.
Qed.

(** ** Running a computation step by step *)

Lemma bind_Ok {S A B : Type} (m : SE S A) (k : A → SE S B) s a s' :
  m s = (Ok a, s') → bind m k s = k a s'.
Proof. unfold bind. by intros ->. Qed.

Lemma bind_Err {S A B : Type} (m : SE S A) (k : A → SE S B) s e s' :
  m s = (Err e, s') → bind m k s = (Err e, s').
Proof. unfold bind. by intros ->. Qed.

Lemma bind_Ok_eq {S A B : Type} (m : SE S A) (k : A → SE S B) s a s' r :
  m s = (Ok a, s') → k a s' = r → bind m k s = r.
Proof. unfold bind. by intros -> ->. Qed.

Lemma bind_inv {S A B : Type} (m : SE S A) (k : A → SE S B) s r s' :
  bind m k s = (r, s') →
  (∃ a s1, m s = (Ok a, s1) ∧ k a s1 = (r, s')) ∨
  (∃ e, m s = (Err e, s') ∧ r = Err e).
Proof.
  unfold bind. destruct (m s) as [[a|e] s1]; intros H.
  - left. by exists a, s1.
  - right. exists e. by injection H as <- <-.
Qed.

Lemma bind_inv_Ok {S A B : Type} (m : SE S A) (k : A → SE S B) s b s' :
  bind m k s = (Ok b, s') → ∃ a s1, m s = (Ok a, s1) ∧ k a s1 = (Ok b, s').
Proof.
  intros H. apply bind_inv in H as [H|(e&_&[=])]. exact H.
Qed.

Lemma ret_eq {S A : Type} (a : A) (s : S) : ret a s = (Ok a, s).
Proof. done. Qed.

Lemma gets_eq {S A : Type} (f : S → A) (s : S) : gets f s = (Ok (f s), s).
Proof. done. Qed.

Lemma query_eq {A : Type} (f : DB → A) (st : Store) : query f st = (Ok (f (db st)), st).
Proof. done. Qed.

Lemma requireAuth_Some {S : Type} (u : Z) (s : S) : requireAuth (Some u) s = (Ok u, s).
Proof. done. Qed.

Lemma liftR_Ok {S A : Type} (r : Result A) (a : A) (s : S) :
  r = Ok a → liftR r s = (Ok a, s).
Proof. by intros ->. Qed.

Lemma liftR_Err {S A : Type} (r : Result A) (e : Failure) (s : S) :
  r = Err e → liftR r s = (Err e, s).
Proof. by intros ->. Qed.

Lemma throwIf_false {S : Type} (c : bool) (e : Failure) (s : S) :
  c = false → throwIf c e s = (Ok tt, s).
Proof. by intros ->. Qed.

Lemma throwIf_true {S : Type} (c : bool) (e : Failure) (s : S) :
  c = true → throwIf c e s = (Err e, s).
Proof. by intros ->. Qed.

Lemma throwIf_inv_Ok {S : Type} (c : bool) (e : Failure) (s s' : S) (u : unit) :
  throwIf c e s = (Ok u, s') → c = false ∧ s' = s.
Proof. destruct c; simpl; [discriminate|]. by intros [= _ ->]. Qed.

Lemma transaction_Ok {A : Type} (body : Tx A) (st : Store) (a : A) (d' : DB) :
  body (db st) = (Ok a, d') →
  transaction body st = (Ok a, mkStore d' (commits st ++ [d'])).
Proof. unfold transaction. by intros ->. Qed.

Lemma transaction_Err {A : Type} (body : Tx A) (st : Store) (e : Failure) (d' : DB) :
  body (db st) = (Err e, d') → transaction body st = (Err e, st).
Proof. unfold transaction. by intros ->. Qed.

Lemma transaction_inv {A : Type} (body : Tx A) (st st' : Store) (r : Result A) :
  transaction body st = (r, st') →
  (∃ a d', body (db st) = (Ok a, d') ∧ r = Ok a ∧
           st' = mkStore d' (commits st ++ [d'])) ∨
  (∃ e d', body (db st) = (Err e, d') ∧ r = Err e ∧ st' = st).
Proof.
  unfold transaction. destruct (body (db st)) as [[a|e] d']; intros [= <- <-].
  - left. by exists a, d'.
  - right. by exists e, d'.
Qed.

(** One step of a computation whose first statement is known to succeed. *)
Ltac se_step :=
  eapply bind_Ok_eq;
  [ first [ eassumption | apply ret_eq | apply gets_eq | apply query_eq
          | apply requireAuth_Some | apply liftR_Ok; eassumption ]
  | cbv beta iota ].
Ltac se_run := repeat se_step.

(** ** Parsing and lookups *)

Lemma parseId_Ok (z : Z) : 0 < z → parseId (JsInt z) = Ok z.
Proof. intros H. simpl. by rewrite bool_decide_eq_false_2 by lia. Qed.

Lemma parseId_Err (v : JsNumber) (e : Failure) :
  parseId v = Err e → e = ApiError 400 BAD_REQUEST.
Proof. destruct v as [z|]; simpl; [case_bool_decide|]; congruence. Qed.

Lemma parseQuantity_Ok (v : JsNumber) (q : Z) :
  parseQuantity v = Ok q ↔ v = JsInt q ∧ 1 ≤ q ≤ 999.
Proof.
  destruct v as [z|]; simpl.
  - destruct (decide (z < 1)) as [H1|H1]; destruct (decide (z > 999)) as [H2|H2];
      rewrite ?(bool_decide_eq_true_2 _ H1), ?(bool_decide_eq_false_2 _ H1),
              ?(bool_decide_eq_true_2 _ H2), ?(bool_decide_eq_false_2 _ H2); simpl;
      (split; [intros [= ->]; split; first [done|lia]
              | intros [[= ->] ?]; first [done | lia]]).
  - split; [done|]. by intros [? _].
Qed.

Lemma parseQuantity_Err (v : JsNumber) :
  ¬ quantityInRange v → parseQuantity v = Err (ApiError 400 VALIDATION_FAILED).
Proof.
  intros H. destruct (parseQuantity v) as [q|e] eqn:E.
  - exfalso. apply H. exists q. by apply parseQuantity_Ok.
  - destruct v as [z|]; simpl in E; [|congruence].
    destruct (_ || _); congruence.
Qed.

Lemma book_findFirstLive_Some (id : Z) (d : DB) (b : Book) :
  book_findFirstLive id d = Some b ↔ books d !! id = Some b ∧ book_deletedAt b = None.
Proof.
  unfold book_findFirstLive. destruct (books d !! id) as [b'|].
  - destruct (book_deletedAt b') eqn:E; split.
    + done.
    + intros [[= ->] ?]. congruence.
    + by intros [= ->].
    + by intros [[= ->] _].
  - split; [done|]. by intros [? _].
Qed.

Lemma getOrCreateActiveCart_spec (u now : Z) (st : Store) :
  ∃ cart st1,
    getOrCreateActiveCart u now st = (Ok cart, st1) ∧
    carts (db st1) !! cart.1 = Some cart.2 ∧
    cart_userId cart.2 = u ∧ cart_status cart.2 = ACTIVE ∧
    (cart_findFirstActive u (db st) = Some cart ∧ st1 = st ∨
     cart_findFirstActive u (db st) = None ∧
     cart = (nextId (carts (db st)), mkCart u ACTIVE now now) ∧
     st1 = mkStore (set_carts (insert cart.1 cart.2) (db st))
                   (commits st ++ [set_carts (insert cart.1 cart.2) (db st)])).
Proof.
  unfold getOrCreateActiveCart, bind, query, gets. simpl.
  destruct (cart_findFirstActive u (db st)) as [c|] eqn:E.
  - exists c, st. apply cart_findFirstActive_Some in E as (?&?&?).
    split; [done|]. repeat split; try done. by left.
  - eexists _, _. split; [reflexivity|]. simpl.
    rewrite lookup_insert_eq. repeat split; try done. by right.
Qed.

(** ** Adding to the cart *)

(** C7. [addCartItemController] rejects a quantity outside 1..999 with a
    400 error, which is VALIDATION_FAILED whenever the book id itself is
    well formed, and leaves the store as it was.  For a quantity in range
    and a live book with enough stock: when the cart has no line for the
    book, one is created with [unitPrice] the price of the book at that
    time; when it has one, the request is rejected with 422 if the old
    quantity plus the new one exceeds the stock, and otherwise the line
    keeps its [unitPrice] and [createdAt] and gets the summed quantity. *)
Theorem addItem_quantity_and_price (u now : Z) (bookId quantity : JsNumber) (st : Store) :
  (¬ quantityInRange quantity →
     (∃ c, addCartItemController (Some u) bookId quantity now st
           = (Err (ApiError 400 c), st)) ∧
     (∀ bId, parseId bookId = Ok bId →
        addCartItemController (Some u) bookId quantity now st
        = (Err (ApiError 400 VALIDATION_FAILED), st))) ∧
  (∀ bId q cart st1 book,
     parseId bookId = Ok bId →
     quantity = JsInt q → 1 ≤ q ≤ 999 →
     getOrCreateActiveCart u now st = (Ok cart, st1) →
     books (db st) !! bId = Some book → book_deletedAt book = None →
     q ≤ book_stock book →
     match cartItems (db st) !! (cart.1, bId) with
     | None =>
         let line := mkCartItem q (book_price book) now now in
         let d2 := set_cartItems (insert (cart.1, bId) line) (db st1) in
         addCartItemController (Some u) bookId quantity now st
         = (Ok (mkCartItemPayload cart.1 bId q (book_price book) now),
            mkStore d2 (commits st1 ++ [d2]))
     | Some existing =>
         if bool_decide (item_quantity existing + q > book_stock book)
         then
           addCartItemController (Some u) bookId quantity now st
           = (Err (ApiError 422 UNPROCESSABLE_ENTITY), st1)
         else
           let line := mkCartItem (item_quantity existing + q)
                                  (item_unitPrice existing)
                                  (item_createdAt existing) now in
           let d2 := set_cartItems (insert (cart.1, bId) line) (db st1) in
           addCartItemController (Some u) bookId quantity now st
           = (Ok (mkCartItemPayload cart.1 bId (item_quantity existing + q)
                                    (item_unitPrice existing) now),
              mkStore d2 (commits st1 ++ [d2]))
     end).
Proof.
  split.
  - intros Hq. apply parseQuantity_Err in Hq.
    destruct (parseId bookId) as [bId|e] eqn:Eid.
    + assert (addCartItemController (Some u) bookId quantity now st
              = (Err (ApiError 400 VALIDATION_FAILED), st)) as H.
      { unfold addCartItemController. se_run. apply bind_Err, liftR_Err, Hq. }
      split; [by eexists|]. by intros ? [= <-].
    + pose proof (parseId_Err _ _ Eid) as ->. split; [|by intros ? [=]].
      eexists. unfold addCartItemController. se_run.
      apply bind_Err, liftR_Err, Eid.
  - intros bId q cart st1 book Hid -> Hq Hcart Hbook Hlive Hstock.
    assert (parseQuantity (JsInt q) = Ok q) as Hpq by (apply parseQuantity_Ok; done).
    destruct (getOrCreateActiveCart_spec u now st) as (cart'&st1'&Hc&Hin&_&_&Hst).
    rewrite Hcart in Hc. injection Hc as <- <-.
    assert (books (db st1) = books (db st) ∧ cartItems (db st1) = cartItems (db st))
      as [Hb Hci].
    { destruct Hst as [[_ ->]|(_&_&->)]; done. }
    assert (book_findFirstLive bId (db st1) = Some book) as Hfind.
    { apply book_findFirstLive_Some. by rewrite Hb. }
    assert (∀ (k : unit → Handler CartItemPayload) r,
              k tt st1 = r →
              bind (throwIf (bool_decide (book_stock book < q))
                            (ApiError 422 UNPROCESSABLE_ENTITY)) k st1 = r) as Hguard.
    { intros k r Hk. eapply bind_Ok_eq; [|exact Hk].
      apply throwIf_false, bool_decide_eq_false_2. lia. }
    destruct (cartItems (db st) !! (cart.1, bId)) as [existing|] eqn:Eex;
      [destruct (decide (item_quantity existing + q > book_stock book)) as [Hover|Hover];
       [rewrite (bool_decide_eq_true_2 _ Hover)|rewrite (bool_decide_eq_false_2 _ Hover)]|];
      cbv zeta; unfold addCartItemController; se_run; rewrite Hfind; apply Hguard.
    + apply bind_Err. eapply transaction_Err.
      erewrite bind_Ok by apply gets_eq.
      unfold cartItem_findUnique. rewrite Hci, Eex.
      apply bind_Err. by apply throwIf_true, bool_decide_eq_true_2.
    + eapply bind_Ok_eq.
      { apply transaction_Ok.
        erewrite bind_Ok by apply gets_eq.
        unfold cartItem_findUnique. rewrite Hci, Eex.
        erewrite bind_Ok by (by apply throwIf_false, bool_decide_eq_false_2).
        unfold cartItem_update. by rewrite Hci, Eex. }
      reflexivity.
    + eapply bind_Ok_eq.
      { apply transaction_Ok.
        erewrite bind_Ok by apply gets_eq.
        unfold cartItem_findUnique. rewrite Hci, Eex.
        unfold cartItem_create. rewrite Hci, Eex.
        rewrite bool_decide_eq_false_2 by (by intros [? ?]).
        rewrite bool_decide_eq_false_2; [done|].
        rewrite Hin, Hb, Hbook. by intros [?|?]. }
      reflexivity.
Qed.

Lemma addItem_quantity_and_price_witness :
  addCartItemController (Some 7) (JsInt 1) (JsInt 1000) 100 sampleStore
  = (Err (ApiError 400 VALIDATION_FAILED), sampleStore) ∧
  (∃ st', addCartItemController (Some 7) (JsInt 1) (JsInt 3) 100 sampleStore
          = (Ok (mkCartItemPayload 1 1 3 10000 100), st')) ∧
  (∃ st', addCartItemController (Some 7) (JsInt 1) (JsInt 2) 200 repricedStore
          = (Ok (mkCartItemPayload 1 1 5 10000 200), st')) ∧
  addCartItemController (Some 7) (JsInt 1) (JsInt 3) 200 repricedStore
  = (Err (ApiError 422 UNPROCESSABLE_ENTITY), repricedStore).
Proof.
  split; [|split; [|split]].
  - refine (proj2 (proj1 (addItem_quantity_and_price 7 100 (JsInt 1) (JsInt 1000)
                                                      sampleStore) _) 1 eq_refl).
    intros (q & Hq & Hr). injection Hq as <-. lia.
  - eexists.
    refine (proj2 (addItem_quantity_and_price 7 100 (JsInt 1) (JsInt 3) sampleStore)
                  1 3 _ _ sampleBook eq_refl eq_refl _ eq_refl eq_refl eq_refl _);
      simpl; lia.
  - eexists.
    refine (proj2 (addItem_quantity_and_price 7 200 (JsInt 1) (JsInt 2) repricedStore)
                  1 2 _ _ _ eq_refl eq_refl _ eq_refl eq_refl eq_refl _);
      simpl; lia.
  - refine (proj2 (addItem_quantity_and_price 7 200 (JsInt 1) (JsInt 3) repricedStore)
                  1 3 _ _ _ eq_refl eq_refl _ eq_refl eq_refl eq_refl _);
      simpl; lia.
Defined.

(** ** Listing the cart *)

Lemma sumLines_lineSum (items : list CartItemWithBook) :
  sumLines items = lineSum (toCartLine <$> items).
Proof.
  unfold sumLines, lineSum.
  assert (∀ acc, foldl (λ sum it, sum + item_unitPrice (cib_item it) *
                                        item_quantity (cib_item it)) acc items
                 = acc + foldr (λ l acc, line_unitPrice l * line_quantity l + acc) 0
                               (toCartLine <$> items)) as H.
  { induction items as [|it items IH]; intros acc.
    - simpl. lia.
    - rewrite fmap_cons. cbn [foldl foldr]. rewrite IH.
      unfold toCartLine at 2 3. cbn [line_unitPrice line_quantity]. lia. }
  by rewrite H.
Qed.


(** ** Likes *)

Lemma review_findFirstLive_Some (id : Z) (d : DB) (r : Review) :
  review_findFirstLive id d = Some r ↔ reviews d !! id = Some r ∧ review_deletedAt r = None.
Proof.
  unfold review_findFirstLive. destruct (reviews d !! id) as [r'|].
  - destruct (review_deletedAt r') eqn:E; split.
    + done.
    + intros [[= ->] ?]. congruence.
    + by intros [= ->].
    + by intros [[= ->] _].
  - split; [done|]. by intros [? _].
Qed.

Lemma review_findFirstLive_None (id : Z) (d : DB) :
  review_findFirstLive id d = None ↔
  reviews d !! id = None ∨ ∃ r t, reviews d !! id = Some r ∧ review_deletedAt r = Some t.
Proof.
  unfold review_findFirstLive. destruct (reviews d !! id) as [r|].
  - destruct (review_deletedAt r) as [t|] eqn:E; split.
    + intros _. right. by exists r, t.
    + done.
    + done.
    + intros [[=]|(r'&t&[= <-]&?)]. congruence.
  - split; [by left|done].
Qed.

Lemma likeReview_deleted (u id now : Z) (st : Store) :
  0 < id → review_findFirstLive id (db st) = None →
  likeReviewController (JsInt id) (Some u) now st
  = (Err (ApiError 404 RESOURCE_NOT_FOUND), st).
Proof.
  intros Hid Hr. pose proof (parseId_Ok _ Hid) as Hp.
  unfold likeReviewController. se_run. by rewrite Hr.
Qed.

Lemma likeReview_again (u id now t : Z) (r : Review) (st : Store) :
  0 < id → review_findFirstLive id (db st) = Some r →
  reviewLikes (db st) !! (u, id) = Some t →
  likeReviewController (JsInt id) (Some u) now st
  = (Ok tt, mkStore (db st) (commits st ++ [db st])).
Proof.
  intros Hid Hr Hl. pose proof (parseId_Ok _ Hid) as Hp.
  unfold likeReviewController. se_run. rewrite Hr.
  apply transaction_Ok. se_step. unfold reviewLike_findUnique. by rewrite Hl.
Qed.

Lemma likeReview_first (u id now : Z) (r : Review) (st : Store) :
  0 < id → review_findFirstLive id (db st) = Some r →
  reviewLikes (db st) !! (u, id) = None →
  likeReviewController (JsInt id) (Some u) now st
  = (Ok tt, mkStore (likedReview u id now r (db st))
                    (commits st ++ [likedReview u id now r (db st)])).
Proof.
  intros Hid Hr Hl. pose proof (parseId_Ok _ Hid) as Hp.
  apply review_findFirstLive_Some in Hr as Hr'. destruct Hr' as [Hlook _].
  unfold likeReviewController. se_run. rewrite Hr.
  apply transaction_Ok. se_step. unfold reviewLike_findUnique. rewrite Hl.
  eapply bind_Ok_eq.
  { unfold reviewLike_create. rewrite Hl.
    rewrite bool_decide_eq_false_2 by (by intros [? ?]).
    rewrite bool_decide_eq_false_2 by (by rewrite Hlook). reflexivity. }
  eapply bind_Ok_eq.
  { unfold review_update. simpl. rewrite Hlook. reflexivity. }
  reflexivity.
Qed.

Lemma unlikeReview_absent (u id now : Z) (st : Store) :
  0 < id → reviewLikes (db st) !! (u, id) = None →
  unlikeReviewController (JsInt id) (Some u) now st
  = (Ok tt, mkStore (db st) (commits st ++ [db st])).
Proof.
  intros Hid Hl. pose proof (parseId_Ok _ Hid) as Hp.
  unfold unlikeReviewController. se_run.
  apply transaction_Ok. se_step. unfold reviewLike_findUnique. by rewrite Hl.
Qed.

Lemma likeComment_again (u id now t : Z) (st : Store) :
  0 < id → commentLikes (db st) !! (u, id) = Some t →
  likeCommentController (JsInt id) (Some u) now st
  = (Ok tt, mkStore (db st) (commits st ++ [db st])).
Proof.
  intros Hid Hl. pose proof (parseId_Ok _ Hid) as Hp.
  unfold likeCommentController. se_run.
  apply transaction_Ok. se_step. unfold commentLike_findUnique. by rewrite Hl.
Qed.

Lemma likeComment_first (u id now : Z) (c : Comment) (st : Store) :
  0 < id → comments (db st) !! id = Some c →
  commentLikes (db st) !! (u, id) = None →
  likeCommentController (JsInt id) (Some u) now st
  = (Ok tt, mkStore (likedComment u id now c (db st))
                    (commits st ++ [likedComment u id now c (db st)])).
Proof.
  intros Hid Hlook Hl. pose proof (parseId_Ok _ Hid) as Hp.
  unfold likeCommentController. se_run.
  apply transaction_Ok. se_step. unfold commentLike_findUnique. rewrite Hl.
  eapply bind_Ok_eq.
  { unfold commentLike_create. rewrite Hl.
    rewrite bool_decide_eq_false_2 by (by intros [? ?]).
    rewrite bool_decide_eq_false_2 by (by rewrite Hlook). reflexivity. }
  eapply bind_Ok_eq.
  { unfold comment_update. simpl. rewrite Hlook. reflexivity. }
  reflexivity.
Qed.

Lemma likeComment_missing (u id now : Z) (st : Store) :
  0 < id → comments (db st) !! id = None →
  commentLikes (db st) !! (u, id) = None →
  likeCommentController (JsInt id) (Some u) now st = (Err (PrismaError P2003), st).
Proof.
  intros Hid Hlook Hl. pose proof (parseId_Ok _ Hid) as Hp.
  unfold likeCommentController. se_run.
  eapply transaction_Err. se_step. unfold commentLike_findUnique. rewrite Hl.
  apply bind_Err. unfold commentLike_create. rewrite Hl.
  rewrite bool_decide_eq_false_2 by (by intros [? ?]).
  by rewrite bool_decide_eq_true_2.
Qed.

Lemma unlikeComment_absent (u id now : Z) (st : Store) :
  0 < id → commentLikes (db st) !! (u, id) = None →
  unlikeCommentController (JsInt id) (Some u) now st
  = (Ok tt, mkStore (db st) (commits st ++ [db st])).
Proof.
  intros Hid Hl. pose proof (parseId_Ok _ Hid) as Hp.
  unfold unlikeCommentController. se_run.
  apply transaction_Ok. se_step. unfold commentLike_findUnique. by rewrite Hl.
Qed.

(** C6. Like and unlike are idempotent, on reviews and on comments.  When
    the like row of the user exists, a like leaves the database as it is:
    no second row (the key is the pair of user and target) and the same
    [likeCount].  In particular, after a like that succeeded, the row
    exists and every further like succeeds without changing anything.
    When the user has no like row, an unlike succeeds and changes
    nothing. *)
Theorem like_unlike_idempotent (u id now : Z) (st : Store) :
  0 < id →
  (is_Some (reviewLikes (db st) !! (u, id)) →
     db (likeReviewController (JsInt id) (Some u) now st).2 = db st) ∧
  (∀ st1, likeReviewController (JsInt id) (Some u) now st = (Ok tt, st1) →
     is_Some (reviewLikes (db st1) !! (u, id)) ∧
     ∀ now', ∃ st2,
       likeReviewController (JsInt id) (Some u) now' st1 = (Ok tt, st2) ∧
       db st2 = db st1) ∧
  (reviewLikes (db st) !! (u, id) = None →
     ∃ st', unlikeReviewController (JsInt id) (Some u) now st = (Ok tt, st') ∧
            db st' = db st) ∧
  (is_Some (commentLikes (db st) !! (u, id)) →
     ∃ st', likeCommentController (JsInt id) (Some u) now st = (Ok tt, st') ∧
            db st' = db st) ∧
  (∀ st1, likeCommentController (JsInt id) (Some u) now st = (Ok tt, st1) →
     is_Some (commentLikes (db st1) !! (u, id)) ∧
     ∀ now', ∃ st2,
       likeCommentController (JsInt id) (Some u) now' st1 = (Ok tt, st2) ∧
       db st2 = db st1) ∧
  (commentLikes (db st) !! (u, id) = None →
     ∃ st', unlikeCommentController (JsInt id) (Some u) now st = (Ok tt, st') ∧
            db st' = db st).
Proof.
  intros Hid. repeat split.
  - intros [t Ht]. destruct (review_findFirstLive id (db st)) as [r|] eqn:Hr.
    + by rewrite (likeReview_again u id now t r st).
    + by rewrite likeReview_deleted.
  - destruct (review_findFirstLive id (db st)) as [r|] eqn:Hr;
      [|by rewrite likeReview_deleted in H].
    destruct (reviewLikes (db st) !! (u, id)) as [t|] eqn:Hl.
    + rewrite (likeReview_again u id now t r st) in H by done.
      injection H as <-. simpl. by rewrite Hl.
    + rewrite (likeReview_first u id now r st) in H by done.
      injection H as <-. simpl. by rewrite lookup_insert_eq.
  - intros now'. destruct (review_findFirstLive id (db st)) as [r|] eqn:Hr;
      [|by rewrite likeReview_deleted in H].
    destruct (reviewLikes (db st) !! (u, id)) as [t|] eqn:Hl.
    + rewrite (likeReview_again u id now t r st) in H by done.
      injection H as <-. eexists.
      split; [by apply (likeReview_again u id now' t r (mkStore _ _))|done].
    + rewrite (likeReview_first u id now r st) in H by done.
      injection H as <-. eexists. split.
      { apply (likeReview_again u id now' now
                 (review_with_updatedAt now
                    (review_with_likeCount (review_likeCount r + 1) r))
                 (mkStore _ _)); [done| |].
        - apply review_findFirstLive_Some. simpl. rewrite lookup_insert_eq.
          split; [done|]. by apply review_findFirstLive_Some in Hr as [_ ?].
        - simpl. by rewrite lookup_insert_eq. }
      done.
  - intros Hl. eexists. split; [by apply unlikeReview_absent|done].
  - intros [t Ht]. eexists. split; [by apply (likeComment_again u id now t)|done].
  - destruct (commentLikes (db st) !! (u, id)) as [t|] eqn:Hl.
    + rewrite (likeComment_again u id now t st) in H by done.
      injection H as <-. simpl. by rewrite Hl.
    + destruct (comments (db st) !! id) as [c|] eqn:Hc.
      * rewrite (likeComment_first u id now c st) in H by done.
        injection H as <-. simpl. by rewrite lookup_insert_eq.
      * by rewrite likeComment_missing in H.
  - intros now'. destruct (commentLikes (db st) !! (u, id)) as [t|] eqn:Hl.
    + rewrite (likeComment_again u id now t st) in H by done.
      injection H as <-. eexists.
      split; [by apply (likeComment_again u id now' t (mkStore _ _))|done].
    + destruct (comments (db st) !! id) as [c|] eqn:Hc.
      * rewrite (likeComment_first u id now c st) in H by done.
        injection H as <-. eexists. split.
        { apply (likeComment_again u id now' now (mkStore _ _)); [done|].
          simpl. by rewrite lookup_insert_eq. }
        done.
      * by rewrite likeComment_missing in H.
  - intros Hl. eexists. split; [by apply unlikeComment_absent|done].
Qed.

Lemma like_unlike_idempotent_witness :
  (∃ st2, likeReviewController (JsInt 1) (Some 8) 700 likedStore = (Ok tt, st2) ∧
          db st2 = db likedStore) ∧
  (∃ st', unlikeCommentController (JsInt 1) (Some 8) 600 commentedStore = (Ok tt, st') ∧
          db st' = db commentedStore).
Proof.
  pose proof (like_unlike_idempotent 8 1 600 commentedStore ltac:(lia))
    as (_ & Hsecond & _ & _ & _ & Hunlike).
  split.
  - exact (proj2 (Hsecond likedStore eq_refl) 700).
  - exact (Hunlike eq_refl).
Defined.

(** C10. [likeCommentController] never looks at the comment it is asked to
    like.  On a soft-deleted comment that the user has not liked yet it
    succeeds, creates the like row and increments the [likeCount] of the
    deleted comment; on a comment that does not exist it is the foreign key
    of the like row that fails, not a check of the controller.
    [likeReviewController] on a soft-deleted review answers 404
    RESOURCE_NOT_FOUND and changes nothing. *)
Theorem likeComment_ignores_soft_delete (u id now t : Z) (st : Store) :
  0 < id →
  (∀ c, comments (db st) !! id = Some c → comment_deletedAt c = Some t →
        commentLikes (db st) !! (u, id) = None →
        ∃ st',
          likeCommentController (JsInt id) (Some u) now st = (Ok tt, st') ∧
          comments (db st') !! id
          = Some (comment_with_updatedAt now
                    (comment_with_likeCount (comment_likeCount c + 1) c)) ∧
          commentLikes (db st') !! (u, id) = Some now) ∧
  (comments (db st) !! id = None → commentLikes (db st) !! (u, id) = None →
     likeCommentController (JsInt id) (Some u) now st = (Err (PrismaError P2003), st)) ∧
  (∀ r, reviews (db st) !! id = Some r → review_deletedAt r = Some t →
        likeReviewController (JsInt id) (Some u) now st
        = (Err (ApiError 404 RESOURCE_NOT_FOUND), st)).
Proof.
  intros Hid. split; [|split].
  - intros c Hc _ Hl. eexists. split.
    { by apply (likeComment_first u id now c). }
    simpl. by rewrite !lookup_insert_eq.
  - by apply likeComment_missing.
  - intros r Hr Hdel. apply likeReview_deleted; [done|].
    apply review_findFirstLive_None. right. by exists r, t.
Qed.

Lemma likeComment_ignores_soft_delete_witness :
  (∃ st',
     likeCommentController (JsInt 1) (Some 9) 900 deletedCommentStore = (Ok tt, st') ∧
     comments (db st') !! 1
     = Some (mkComment 1 8 "Agreed." 1 500 900 (Some 800)) ∧
     commentLikes (db st') !! (9, 1) = Some 900) ∧
  likeReviewController (JsInt 1) (Some 9) 900 deletedReviewStore
  = (Err (ApiError 404 RESOURCE_NOT_FOUND), deletedReviewStore).
Proof.
  split.
  - exact (proj1 (likeComment_ignores_soft_delete 9 1 900 800 deletedCommentStore
                    ltac:(lia))
                 (mkComment 1 8 "Agreed." 0 500 800 (Some 800)) eq_refl eq_refl eq_refl).
  - refine (proj2 (proj2 (likeComment_ignores_soft_delete 9 1 900 800 deletedReviewStore
                            ltac:(lia))) _ eq_refl eq_refl).
Defined.

(** ** Comments and the comment counter *)

(** [createCommentController] and [deleteCommentController] write the
    comment and the counter of its review as two statements on the global
    client, each committed on its own: the history of the store grows by
    two states, and in the first of them the comment row is already written
    (or already soft-deleted) while every review, with its [commentCount],
    is still as before.  The like controllers of the same file run their
    two writes in one transaction, which commits once. *)
Lemma comment_writes_commit_separately (u id now : Z) (st : Store) :
  0 < id →
  (∀ content r,
     invalidContent content = false →
     reviews (db st) !! id = Some r → review_deletedAt r = None →
     ∃ cid c d1 d2,
       createCommentController (JsInt id) (Some u) content now st
       = (Ok (cid, now), mkStore d2 (commits st ++ [d1; d2])) ∧
       comments (db st) !! cid = None ∧
       comments d1 !! cid = Some c ∧ comment_reviewId c = id ∧
       comment_deletedAt c = None ∧
       reviews d1 = reviews (db st) ∧
       reviews d2 !! id
       = Some (review_with_updatedAt now
                 (review_with_commentCount (review_commentCount r + 1) r))) ∧
  (∀ c r,
     comments (db st) !! id = Some c → comment_userId c = u →
     comment_deletedAt c = None →
     reviews (db st) !! comment_reviewId c = Some r →
     ∃ d1 d2,
       deleteCommentController (JsInt id) (Some u) now st
       = (Ok (Deleted id (Some now)), mkStore d2 (commits st ++ [d1; d2])) ∧
       (∃ c', comments d1 !! id = Some c' ∧ comment_deletedAt c' = Some now) ∧
       reviews d1 = reviews (db st) ∧
       reviews d2 !! comment_reviewId c
       = Some (review_with_updatedAt now
                 (review_with_commentCount (review_commentCount r - 1) r))) ∧
  (∀ c, comments (db st) !! id = Some c → commentLikes (db st) !! (u, id) = None →
     ∃ d1, likeCommentController (JsInt id) (Some u) now st
           = (Ok tt, mkStore d1 (commits st ++ [d1]))).
Proof.
  intros Hid. pose proof (parseId_Ok _ Hid) as Hp. split; [|split].
  - intros content r Hcontent Hr Hlive.
    assert (review_findFirstLive id (db st) = Some r) as Hfind
      by (by apply review_findFirstLive_Some).
    set (c := mkComment id u (trim (default ""%string content)) 0 now now None).
    set (cid := nextId (comments (db st))).
    set (d1 := set_comments (insert cid c) (db st)).
    exists cid, c, d1. eexists. split; [|split; [|split; [|split; [|split; [|split]]]]].
    + unfold createCommentController. se_run.
      eapply bind_Ok_eq; [by apply throwIf_false|]. se_run. rewrite Hfind.
      eapply bind_Ok_eq.
      { apply (transaction_Ok _ _ (cid, c) d1). unfold comment_create.
        by rewrite bool_decide_eq_false_2 by (simpl; by rewrite Hr). }
      cbv beta. eapply bind_Ok_eq.
      { apply transaction_Ok. unfold review_update. simpl. rewrite Hr. reflexivity. }
      cbv beta. simpl. rewrite <- app_assoc. reflexivity.
    + apply nextId_fresh.
    + simpl. apply lookup_insert_eq.
    + done.
    + done.
    + done.
    + simpl. apply lookup_insert_eq.
  - intros c r Hc Hu Hlive Hr.
    set (c' := comment_with_updatedAt now (comment_with_deletedAt (Some now) c)).
    set (d1 := set_comments (insert id c') (db st)).
    exists d1. eexists. split; [|split; [|split]].
    + unfold deleteCommentController. se_run.
      unfold comment_findUnique. rewrite Hc.
      eapply bind_Ok_eq.
      { apply throwIf_false, bool_decide_eq_false_2. by intros ?. }
      rewrite Hlive. eapply bind_Ok_eq.
      { apply (transaction_Ok _ _ c' d1). unfold comment_update. by rewrite Hc. }
      cbv beta. eapply bind_Ok_eq.
      { apply transaction_Ok. unfold review_update. simpl. rewrite Hr. reflexivity. }
      cbv beta. simpl. rewrite <- app_assoc. reflexivity.
    + exists c'. split; [|done]. simpl. apply lookup_insert_eq.
    + done.
    + simpl. apply lookup_insert_eq.
  - intros c Hc Hl. eexists. by apply (likeComment_first u id now c).
Qed.

(** C9 does not hold of the code.  On the store in which book #1 has one
    review and no comment, creating a comment commits twice.  The state
    committed first holds one live comment for the review while its
    [commentCount] is still 0; only the second commit brings the counter to
    1.  The set and its counter are not updated as one unit of work. *)
Theorem createComment_not_atomic :
  ∃ d1 d2,
    createCommentController (JsInt 1) (Some 8) (Some "Agreed."%string) 500 reviewedStore
    = (Ok (1, 500), mkStore d2 (commits reviewedStore ++ [d1; d2])) ∧
    (liveCommentCount 1 (db reviewedStore) = 0 ∧
     review_commentCount <$> reviews (db reviewedStore) !! 1 = Some 0) ∧
    (liveCommentCount 1 d1 = 1 ∧ review_commentCount <$> reviews d1 !! 1 = Some 0) ∧
    (liveCommentCount 1 d2 = 1 ∧ review_commentCount <$> reviews d2 !! 1 = Some 1).
Proof.
  eexists _, _. split; [vm_compute; reflexivity|].
  repeat split; vm_compute; reflexivity.
Qed.

(** ** Reviews and the rating of a book *)

Lemma sumZ_Permutation (l1 l2 : list Z) : l1 ≡ₚ l2 → sumZ l1 = sumZ l2.
Proof.
  unfold sumZ. induction 1 as [|x l1 l2 _ IH|x y l|l1 l2 l3 _ IH1 _ IH2]; simpl; lia.
Qed.

Lemma rows_Permutation {V : Type} (m : gmap Z V) : rows m ≡ₚ map_to_list m.
Proof. apply merge_sort_Permutation. Qed.




Lemma ret_inv {S A : Type} (a : A) (s : S) (r : Result A) (s' : S) :
  ret a s = (r, s') → r = Ok a ∧ s' = s.
Proof. by intros [= <- <-]. Qed.

Lemma gets_inv {S A : Type} (f : S → A) (s : S) (r : Result A) (s' : S) :
  gets f s = (r, s') → r = Ok (f s) ∧ s' = s.
Proof. by intros [= <- <-]. Qed.

Lemma query_inv {A : Type} (f : DB → A) (st : Store) (r : Result A) (st' : Store) :
  query f st = (r, st') → r = Ok (f (db st)) ∧ st' = st.
Proof. by intros [= <- <-]. Qed.

Lemma liftR_inv_Ok {S A : Type} (r : Result A) (a : A) (s s' : S) :
  liftR r s = (Ok a, s') → r = Ok a ∧ s' = s.
Proof. destruct r; simpl; [by intros [= <- <-]|discriminate]. Qed.

Lemma requireAuth_inv_Ok {S : Type} (authUser : option Z) (u : Z) (s s' : S) :
  requireAuth authUser s = (Ok u, s') → authUser = Some u ∧ s' = s.
Proof. destruct authUser; simpl; [by intros [= <- <-]|discriminate]. Qed.

(** Peels the first statement off a computation that is known to succeed. *)
Ltac se_inv H a s Ha :=
  apply bind_inv_Ok in H as (a & s & Ha & H);
  lazymatch type of Ha with
  | ret _ _ = _ => apply ret_inv in Ha as [Ha ->]; injection Ha as ->
  | gets _ _ = _ => apply gets_inv in Ha as [Ha ->]; injection Ha as ->
  | query _ _ = _ => apply query_inv in Ha as [Ha ->]; injection Ha as ->
  | liftR _ _ = _ => apply liftR_inv_Ok in Ha as [Ha ->]
  | requireAuth _ _ = _ => apply requireAuth_inv_Ok in Ha as [Ha ->]
  | throwIf _ _ _ = _ => apply throwIf_inv_Ok in Ha as [Ha ->]
  | _ => idtac
  end.








(** The scenario of the specification: a first review with five stars sets
    [avgRating] to 5 and [reviewCount] to 1, and deleting it resets both
    to 0. *)
Example first_review_then_delete :
  (book_reviewCount <$> books (db reviewedStore) !! 1) = Some 1 ∧
  (Qcanon.this ∘ book_avgRating <$> books (db reviewedStore) !! 1) = Some (5 # 1)%Q ∧
  (book_reviewCount <$> books (db deletedReviewStore) !! 1) = Some 0 ∧
  (Qcanon.this ∘ book_avgRating <$> books (db deletedReviewStore) !! 1) = Some (0 # 1)%Q.
Proof. repeat split; vm_compute; reflexivity. Qed.

(** ** What a computation preserves *)

Global Instance keeps_preorder {T : Type} (f : DB → T) : PreOrder (keeps f).
Proof.
  split; [by intros d|]. intros d1 d2 d3 H1 H2. unfold keeps in *. congruence.
Qed.

Section preservation.
Context (R : relation DB) `{!PreOrder R}.

Lemma txp_ret {A : Type} (a : A) : txPreserves R (ret a).
Proof. intros d a' d' [= _ <-]. reflexivity. Qed.

Lemma txp_throw {A : Type} (e : Failure) : txPreserves R (@throw DB A e).
Proof. intros d a d' [=]. Qed.

Lemma txp_gets {A : Type} (f : DB → A) : txPreserves R (gets f).
Proof. intros d a d' [= _ <-]. reflexivity. Qed.

Lemma txp_throwIf (c : bool) (e : Failure) : txPreserves R (throwIf c e).
Proof. intros d a d' H. apply throwIf_inv_Ok in H as [_ ->]. reflexivity. Qed.

Lemma txp_bind {A B : Type} (m : Tx A) (k : A → Tx B) :
  txPreserves R m → (∀ a, txPreserves R (k a)) → txPreserves R (bind m k).
Proof.
  intros Hm Hk d b d' H. apply bind_inv_Ok in H as (a & d1 & H1 & H2).
  transitivity d1; [by eapply Hm|by eapply Hk].
Qed.

Lemma txp_forEach {A : Type} (xs : list A) (body : A → Tx unit) :
  (∀ x, txPreserves R (body x)) → txPreserves R (forEach xs body).
Proof.
  intros Hbody. induction xs as [|x xs IH]; simpl.
  - apply txp_ret.
  - apply txp_bind; [apply Hbody|]. intros _. apply IH.
Qed.

Lemma hp_ret {A : Type} (a : A) : hPreserves R (ret a).
Proof. intros st r st' [= _ <-]. reflexivity. Qed.

Lemma hp_throw {A : Type} (e : Failure) : hPreserves R (@throw Store A e).
Proof. intros st r st' [= _ <-]. reflexivity. Qed.

Lemma hp_query {A : Type} (f : DB → A) : hPreserves R (query f).
Proof. intros st r st' [= _ <-]. reflexivity. Qed.

Lemma hp_throwIf (c : bool) (e : Failure) : hPreserves R (throwIf c e).
Proof. intros st r st'. destruct c; intros [= _ <-]; reflexivity. Qed.

Lemma hp_liftR {A : Type} (x : Result A) : hPreserves R (liftR x).
Proof. intros st r st'. destruct x; intros [= _ <-]; reflexivity. Qed.

Lemma hp_requireAuth (authUser : option Z) : hPreserves R (requireAuth authUser).
Proof. intros st r st'. destruct authUser; intros [= _ <-]; reflexivity. Qed.

Lemma hp_bind {A B : Type} (m : Handler A) (k : A → Handler B) :
  hPreserves R m → (∀ a, hPreserves R (k a)) → hPreserves R (bind m k).
Proof.
  intros Hm Hk st r st' H.
  apply bind_inv in H as [(a & st1 & H1 & H2)|(e & H1 & _)].
  - transitivity (db st1); [by eapply Hm|by eapply Hk].
  - by eapply Hm.
Qed.

Lemma hp_transaction {A : Type} (body : Tx A) :
  txPreserves R body → hPreserves R (transaction body).
Proof.
  intros Hbody st r st' H.
  apply transaction_inv in H as [(a & d' & H1 & _ & ->)|(e & d' & _ & _ & ->)].
  - by eapply Hbody.
  - reflexivity.
Qed.

End preservation.

(** Splits a computation into its statements. *)
Ltac preserves_step :=
  lazymatch goal with
  | |- txPreserves _ (bind _ _) => apply txp_bind; [apply _| |intros ?]
  | |- txPreserves _ (ret _) => apply txp_ret; apply _
  | |- txPreserves _ (throw _) => apply txp_throw
  | |- txPreserves _ (gets _) => apply txp_gets; apply _
  | |- txPreserves _ (throwIf _ _) => apply txp_throwIf; apply _
  | |- txPreserves _ (forEach _ _) => apply txp_forEach; [apply _|intros ?]
  | |- txPreserves _ (match ?x with _ => _ end) => destruct x
  | |- hPreserves _ (bind _ _) => apply hp_bind; [apply _| |intros ?]
  | |- hPreserves _ (ret _) => apply hp_ret; apply _
  | |- hPreserves _ (throw _) => apply hp_throw; apply _
  | |- hPreserves _ (query _) => apply hp_query; apply _
  | |- hPreserves _ (throwIf _ _) => apply hp_throwIf; apply _
  | |- hPreserves _ (liftR _) => apply hp_liftR; apply _
  | |- hPreserves _ (requireAuth _) => apply hp_requireAuth; apply _
  | |- hPreserves _ (transaction _) => apply hp_transaction; [apply _|]
  | |- hPreserves _ (prisma _) => apply hp_transaction; [apply _|]
  | |- hPreserves _ (match ?x with _ => _ end) => destruct x
  end.

Lemma cartItem_create_keeps {T : Type} (f : DB → T) cartId bookId it :
  (∀ g d, f (set_cartItems g d) = f d) →
  txPreserves (keeps f) (cartItem_create cartId bookId it).
Proof.
  intros Hf d a d'. unfold cartItem_create, keeps.
  repeat case_bool_decide; intros [= _ <-]; by rewrite ?Hf.
Qed.

Lemma cartItem_update_keeps {T : Type} (f : DB → T) cartId bookId g :
  (∀ g d, f (set_cartItems g d) = f d) →
  txPreserves (keeps f) (cartItem_update cartId bookId g).
Proof.
  intros Hf d a d'. unfold cartItem_update, keeps.
  destruct (cartItems d !! _); intros [= _ <-]; by rewrite ?Hf.
Qed.

Lemma cartItem_deleteMany_keeps {T : Type} (f : DB → T) cartId bookId :
  (∀ g d, f (set_cartItems g d) = f d) →
  txPreserves (keeps f) (cartItem_deleteMany cartId bookId).
Proof. intros Hf d a d'. unfold cartItem_deleteMany, modify, keeps. by intros [= _ <-]. Qed.

Lemma cart_create_keeps {T : Type} (f : DB → T) userId now :
  (∀ g d, f (set_carts g d) = f d) →
  txPreserves (keeps f) (cart_create userId now).
Proof. intros Hf d a d'. unfold cart_create, keeps. by intros [= _ <-]. Qed.

Lemma cart_update_keeps {T : Type} (f : DB → T) id g :
  (∀ g d, f (set_carts g d) = f d) →
  txPreserves (keeps f) (cart_update id g).
Proof.
  intros Hf d a d'. unfold cart_update, keeps.
  destruct (carts d !! _); intros [= _ <-]; by rewrite ?Hf.
Qed.

Lemma book_update_keeps {T : Type} (f : DB → T) id g :
  (∀ g d, f (set_books g d) = f d) →
  txPreserves (keeps f) (book_update id g).
Proof.
  intros Hf d a d'. unfold book_update, keeps.
  destruct (books d !! _); intros [= _ <-]; by rewrite ?Hf.
Qed.

Lemma order_create_keeps {T : Type} (f : DB → T) o :
  (∀ g d, f (set_orders g d) = f d) →
  txPreserves (keeps f) (order_create o).
Proof.
  intros Hf d a d'. unfold order_create, keeps.
  destruct (order_cartId o); repeat case_bool_decide; intros [= _ <-]; by rewrite ?Hf.
Qed.

Lemma orderItem_create_keeps {T : Type} (f : DB → T) orderId bookId oi :
  (∀ g d, f (set_orderItems g d) = f d) →
  txPreserves (keeps f) (orderItem_create orderId bookId oi).
Proof.
  intros Hf d a d'. unfold orderItem_create, keeps.
  repeat case_bool_decide; intros [= _ <-]; by rewrite ?Hf.
Qed.

Lemma cartItem_findManyWithBook_keeps (R : relation DB) `{!PreOrder R} cartId :
  txPreserves R (cartItem_findManyWithBook cartId).
Proof.
  intros d a d'. unfold cartItem_findManyWithBook.
  destruct (includeBook d _); intros [= _ <-]. reflexivity.
Qed.

Lemma getOrCreateActiveCart_keeps {T : Type} (f : DB → T) userId now :
  (∀ g d, f (set_carts g d) = f d) →
  hPreserves (keeps f) (getOrCreateActiveCart userId now).
Proof.
  intros Hf. unfold getOrCreateActiveCart.
  repeat preserves_step. by apply cart_create_keeps.
Qed.

(** The four cart controllers write to the carts and cart items only. *)
Ltac cart_handler_keeps :=
  repeat preserves_step;
  first [ by apply getOrCreateActiveCart_keeps
        | by apply cartItem_create_keeps
        | by apply cartItem_update_keeps
        | by apply cartItem_deleteMany_keeps ].

Lemma listCart_keeps {T : Type} (f : DB → T) authUser qpage qsize now :
  (∀ g d, f (set_carts g d) = f d) → (∀ g d, f (set_cartItems g d) = f d) →
  hPreserves (keeps f) (listCartController authUser qpage qsize now).
Proof. intros Hc Hi. unfold listCartController. cart_handler_keeps. Qed.

Lemma addCartItem_keeps {T : Type} (f : DB → T) authUser bookId quantity now :
  (∀ g d, f (set_carts g d) = f d) → (∀ g d, f (set_cartItems g d) = f d) →
  hPreserves (keeps f) (addCartItemController authUser bookId quantity now).
Proof. intros Hc Hi. unfold addCartItemController. cart_handler_keeps. Qed.

Lemma updateCartItem_keeps {T : Type} (f : DB → T) authUser bookId quantity now :
  (∀ g d, f (set_carts g d) = f d) → (∀ g d, f (set_cartItems g d) = f d) →
  hPreserves (keeps f) (updateCartItemController authUser bookId quantity now).
Proof. intros Hc Hi. unfold updateCartItemController. cart_handler_keeps. Qed.

Lemma removeCartItem_keeps {T : Type} (f : DB → T) authUser bookId now :
  (∀ g d, f (set_carts g d) = f d) → (∀ g d, f (set_cartItems g d) = f d) →
  hPreserves (keeps f) (removeCartItemController authUser bookId now).
Proof. intros Hc Hi. unfold removeCartItemController. cart_handler_keeps. Qed.

(** ** The checkout: reading and validating the cart *)

Lemma elem_of_cartItem_ofCart (cid : Z) (d : DB) (b : Z) (ci : CartItem) :
  (b, ci) ∈ cartItem_ofCart cid d ↔ cartItems d !! (cid, b) = Some ci.
Proof.
  unfold cartItem_ofCart. rewrite list_elem_of_omap. split.
  - intros ([[c b'] ci'] & Hin & Hf). simpl in Hf. case_bool_decide; [|done].
    simplify_eq. by apply elem_of_rows2.
  - intros H. exists ((cid, b), ci). split; [by apply elem_of_rows2|].
    simpl. by rewrite bool_decide_eq_true_2.
Qed.


Lemma includeBook_inv (d : DB) (l : list (Z * CartItem)) (items : list CartItemWithBook) :
  includeBook d l = Ok items → Forall2 (joined d) l items.
Proof.
  revert items. induction l as [|r l IH]; intros items; simpl.
  - intros [= <-]. constructor.
  - destruct (books d !! r.1) as [b|] eqn:Hb; [|discriminate].
    destruct (includeBook d l) as [rest|e]; [|discriminate].
    intros [= <-]. constructor; [done|by apply IH].
Qed.

Lemma includeBook_total (d : DB) (l : list (Z * CartItem)) :
  (∀ r, r ∈ l → is_Some (books d !! r.1)) → ∃ items, includeBook d l = Ok items.
Proof.
  induction l as [|r l IH]; intros Hl; simpl; [by eexists|].
  destruct (Hl r) as [b Hb]; [by left|]. rewrite Hb.
  destruct IH as [rest ->]; [intros ??; apply Hl; by right|]. by eexists.
Qed.


Lemma joined_elem_of (d : DB) (l : list (Z * CartItem)) (items : list CartItemWithBook) it :
  Forall2 (joined d) l items → it ∈ items →
  (cib_bookId it, cib_item it) ∈ l ∧ books d !! cib_bookId it = Some (cib_book it).
Proof.
  induction 1 as [|r it' l items (Hb & Hi & Hbk) _ IH]; intros Hin.
  - by apply elem_of_nil in Hin.
  - apply elem_of_cons in Hin as [->|Hin].
    + rewrite Hb, Hi. split; [destruct r; by left|done].
    + destruct (IH Hin) as [? ?]. split; [by right|done].
Qed.

Lemma joined_lookup (d : DB) (l : list (Z * CartItem)) (items : list CartItemWithBook) r :
  Forall2 (joined d) l items → r ∈ l →
  ∃ it, it ∈ items ∧ joined d r it.
Proof.
  induction 1 as [|r' it' l items Hj _ IH]; intros Hin.
  - by apply elem_of_nil in Hin.
  - apply elem_of_cons in Hin as [->|Hin].
    + exists it'. split; [by left|done].
    + destruct (IH Hin) as (it & ? & ?). exists it. split; [by right|done].
Qed.

Lemma sumLines_joined (d : DB) (l : list (Z * CartItem)) (items : list CartItemWithBook) :
  Forall2 (joined d) l items →
  sumLines items = foldr (λ r acc, item_unitPrice r.2 * item_quantity r.2 + acc) 0 l.
Proof.
  intros H. rewrite sumLines_lineSum. unfold lineSum.
  induction H as [|r it l items (_ & Hi & _) _ IH]; [done|].
  rewrite fmap_cons. cbn [foldr]. rewrite IH.
  unfold toCartLine at 1 2. cbn [line_unitPrice line_quantity]. by rewrite Hi.
Qed.

Lemma validate_Ok (d : DB) (items : list CartItemWithBook) :
  Forall validItem items → forEach items validateItem d = (Ok tt, d).
Proof.
  induction 1 as [|it items [Hdel Hstock] _ IH]; simpl; [done|].
  eapply bind_Ok_eq; [|exact IH].
  unfold validateItem. eapply bind_Ok_eq.
  - apply throwIf_false, bool_decide_eq_false_2. rewrite Hdel. by intros [? ?].
  - apply throwIf_false, bool_decide_eq_false_2. lia.
Qed.

Lemma validate_Err (d : DB) (items : list CartItemWithBook) :
  ¬ Forall validItem items →
  forEach items validateItem d = (Err (ApiError 422 UNPROCESSABLE_ENTITY), d).
Proof.
  induction items as [|it items IH]; intros Hnot.
  - exfalso. apply Hnot. constructor.
  - simpl. destruct (decide (validItem it)) as [[Hdel Hstock]|Hbad].
    + eapply bind_Ok_eq.
      * unfold validateItem. eapply bind_Ok_eq.
        -- apply throwIf_false, bool_decide_eq_false_2. rewrite Hdel. by intros [? ?].
        -- apply throwIf_false, bool_decide_eq_false_2. lia.
      * apply IH. intros Hall. apply Hnot. by constructor.
    + apply bind_Err. unfold validateItem.
      destruct (book_deletedAt (cib_book it)) as [t|] eqn:Hdel.
      * apply bind_Err, throwIf_true, bool_decide_eq_true_2. by eexists.
      * eapply bind_Ok_eq.
        -- apply throwIf_false, bool_decide_eq_false_2. by intros [? ?].
        -- apply throwIf_true, bool_decide_eq_true_2.
           unfold validItem in Hbad. rewrite Hdel in Hbad.
           destruct (decide (book_stock (cib_book it) < item_quantity (cib_item it)));
             [done|]. exfalso. apply Hbad. split; [done|lia].
Qed.

Lemma validate_inv (d d' : DB) (items : list CartItemWithBook) (x : unit) :
  forEach items validateItem d = (Ok x, d') → Forall validItem items ∧ d' = d.
Proof.
  intros H. destruct (decide (Forall validItem items)) as [Hall|Hnot].
  - rewrite (validate_Ok d items Hall) in H. by injection H as _ <-.
  - by rewrite (validate_Err d items Hnot) in H.
Qed.

(** ** The checkout: order items and stock *)

Lemma placeItem_inv (oid : Z) (it : CartItemWithBook) (d d' : DB) (x : unit) :
  placeItem oid it d = (Ok x, d') →
  orderItems d !! (oid, cib_bookId it) = None ∧
  ∃ bk, books d !! cib_bookId it = Some bk ∧
        d' = set_books
               (insert (cib_bookId it)
                  (book_with_stock (book_stock bk - item_quantity (cib_item it)) bk))
               (set_orderItems (insert (oid, cib_bookId it) (orderItemOf it)) d).
Proof.
  unfold placeItem. intros H. apply bind_inv_Ok in H as (y & d1 & Hcreate & Hupdate).
  unfold orderItem_create in Hcreate.
  case_bool_decide as Hfree; [discriminate|].
  case_bool_decide as Hfk; [discriminate|]. injection Hcreate as _ <-.
  unfold book_update in Hupdate. cbn [books set_orderItems] in Hupdate.
  destruct (books d !! cib_bookId it) as [bk|] eqn:Hbk; [|discriminate].
  injection Hupdate as _ <-. split.
  - destruct (orderItems d !! (oid, cib_bookId it)) eqn:E; [|done].
    exfalso. apply Hfree. by eexists.
  - by exists bk.
Qed.


Lemma placeItems_inv (oid : Z) (items : list CartItemWithBook) (d d' : DB) (x : unit) :
  forEach items (placeItem oid) d = (Ok x, d') →
  NoDup (cib_bookId <$> items) ∧
  (∀ it, it ∈ items →
     orderItems d !! (oid, cib_bookId it) = None ∧
     orderItems d' !! (oid, cib_bookId it) = Some (orderItemOf it) ∧
     ∃ bk, books d !! cib_bookId it = Some bk ∧
           books d' !! cib_bookId it
           = Some (book_with_stock (book_stock bk - item_quantity (cib_item it)) bk)) ∧
  (∀ o b, (o ≠ oid ∨ b ∉ cib_bookId <$> items) →
          orderItems d' !! (o, b) = orderItems d !! (o, b)) ∧
  (∀ b, b ∉ cib_bookId <$> items → books d' !! b = books d !! b).
Proof.
  revert d. induction items as [|it items IH]; intros d H.
  - injection H as _ <-. split; [constructor|].
    split; [intros it Hin; by apply elem_of_nil in Hin|]. done.
  - simpl in H. apply bind_inv_Ok in H as (y & d1 & Hplace & Hrest).
    apply placeItem_inv in Hplace as (Hfree & bk & Hbk & ->).
    destruct (IH _ Hrest) as (Hnd & Hitems & Hothers & Hbooks).
    cbn [orderItems books set_books set_orderItems] in Hitems, Hothers, Hbooks.
    assert (cib_bookId it ∉ cib_bookId <$> items) as Hnotin.
    { intros Hin. apply list_elem_of_fmap in Hin as (it' & Heq & Hin).
      destruct (Hitems it' Hin) as (Hnone & _). rewrite <- Heq in Hnone.
      by rewrite lookup_insert_eq in Hnone. }
    split; [rewrite fmap_cons; by apply NoDup_cons_2|].
    split; [|split].
    + intros it' Hin. apply elem_of_cons in Hin as [->|Hin].
      * split; [done|]. split.
        -- rewrite Hothers by (by right). apply lookup_insert_eq.
        -- exists bk. split; [done|]. rewrite Hbooks by done. apply lookup_insert_eq.
      * destruct (Hitems it' Hin) as (Hnone & Hsome & bk' & Hbk' & Hbk'').
        assert (cib_bookId it ≠ cib_bookId it') as Hne.
        { intros Heq. apply Hnotin. rewrite Heq. by apply list_elem_of_fmap_2. }
        rewrite lookup_insert_ne in Hnone by congruence.
        rewrite lookup_insert_ne in Hbk' by done.
        split; [done|]. split; [done|]. by exists bk'.
    + intros o b Hob. rewrite Hothers.
      * apply lookup_insert_ne. intros [= <- <-]. destruct Hob as [?|Hb]; [done|].
        apply Hb. rewrite fmap_cons. by left.
      * destruct Hob as [?|Hb]; [by left|right].
        intros Hin. apply Hb. rewrite fmap_cons. by right.
    + intros b Hb. rewrite fmap_cons in Hb. rewrite Hbooks.
      * apply lookup_insert_ne. intros <-. apply Hb. by left.
      * intros Hin. apply Hb. by right.
Qed.


Lemma placeItems_keeps {T : Type} (f : DB → T) (oid : Z) (items : list CartItemWithBook) :
  (∀ g d, f (set_books g d) = f d) →
  (∀ g d, f (set_orderItems g d) = f d) →
  txPreserves (keeps f) (forEach items (placeItem oid)).
Proof.
  intros Hb Ho. unfold placeItem. repeat preserves_step.
  - by apply orderItem_create_keeps.
  - by apply book_update_keeps.
Qed.

Lemma order_create_inv (o : Order) (d d' : DB) (r : Z * Order) :
  order_create o d = (Ok r, d') →
  r = (nextId (orders d), o) ∧ d' = set_orders (insert (nextId (orders d)) o) d.
Proof.
  unfold order_create. destruct (order_cartId o); repeat case_bool_decide;
    try discriminate; by intros [= <- <-].
Qed.

(** What a checkout that succeeds has done. *)
Lemma checkout_inv (u now : Z) (d d' : DB) (res : OrderCreated) :
  checkout u now d = (Ok res, d') →
  ∃ cid cart items d2,
    cart_findFirstActive u d = Some (cid, cart) ∧
    Forall2 (joined d) (cartItem_ofCart cid d) items ∧
    items ≠ [] ∧ Forall validItem items ∧
    res = mkOrderCreated (nextId (orders d)) now ∧
    forEach items (placeItem (nextId (orders d)))
      (set_orders
         (insert (nextId (orders d))
            (mkOrder u (Some cid) PENDING UNPAID (cartTotal cid d) (Some now) now now)) d)
    = (Ok tt, d2) ∧
    d' = set_carts
           (insert cid (mkCart (cart_userId cart) CHECKED_OUT (cart_createdAt cart) now)) d2.
Proof.
  unfold checkout. intros H. se_inv H found d0 Hfound.
  destruct (cart_findFirstActive u d) as [[cid cart]|] eqn:Hcart; [|discriminate].
  cbn [fst snd] in H.
  apply bind_inv_Ok in H as (items & d1 & Hitems & H).
  unfold cartItem_findManyWithBook in Hitems.
  destruct (includeBook d (cartItem_ofCart cid d)) as [items'|] eqn:Hincl; [|discriminate].
  injection Hitems as -> <-. apply includeBook_inv in Hincl as Hjoin.
  se_inv H x1 d1 Hempty. apply bool_decide_eq_false in Hempty.
  apply bind_inv_Ok in H as (x2 & d2 & Hvalid & H).
  apply validate_inv in Hvalid as [Hvalid ->].
  apply bind_inv_Ok in H as (order & d3 & Horder & H).
  apply order_create_inv in Horder as [-> ->]. cbn [fst snd] in H.
  apply bind_inv_Ok in H as (x4 & d4 & Hloop & H).
  apply bind_inv_Ok in H as (x5 & d5 & Hupd & H).
  apply ret_inv in H as [H ->]. injection H as ->.
  pose proof (placeItems_keeps carts _ _ ltac:(done) ltac:(done) _ _ _ Hloop) as Hcarts.
  unfold keeps in Hcarts. cbn [carts set_orders] in Hcarts.
  apply cart_findFirstActive_Some in Hcart as Hc. destruct Hc as (Hlook & _ & _).
  cbn [fst snd] in Hlook.
  unfold cart_update in Hupd. rewrite Hcarts, Hlook in Hupd. injection Hupd as _ <-.
  destruct x4. exists cid, cart, items, d4.
  rewrite (sumLines_joined _ _ _ Hjoin) in Hloop.
  split; [done|]. split; [done|]. split; [by destruct items|]. done.
Qed.

Lemma checkout_no_cart (u now : Z) (d : DB) :
  cart_findFirstActive u d = None →
  checkout u now d = (Err (ApiError 404 RESOURCE_NOT_FOUND), d).
Proof. intros H. unfold checkout. se_step. by rewrite H. Qed.

Lemma checkout_invalid (u now : Z) (d : DB) cid cart items :
  cart_findFirstActive u d = Some (cid, cart) →
  includeBook d (cartItem_ofCart cid d) = Ok items →
  items = [] ∨ ¬ Forall validItem items →
  checkout u now d = (Err (ApiError 422 UNPROCESSABLE_ENTITY), d).
Proof.
  intros Hcart Hincl Hbad. unfold checkout. se_step. rewrite Hcart. cbn [fst].
  eapply bind_Ok_eq.
  { unfold cartItem_findManyWithBook. rewrite Hincl. reflexivity. }
  cbv beta. destruct items as [|it items].
  - apply bind_Err. by apply throwIf_true.
  - destruct Hbad as [?|Hbad]; [done|].
    eapply bind_Ok_eq; [by apply throwIf_false|].
    apply bind_Err. by apply validate_Err.
Qed.


(** ** Checkout is all or nothing *)

Lemma createOrder_failure_rolls_back (authUser : option Z) (now : Z) (st st' : Store) e :
  createOrderFromCartController authUser now st = (Err e, st') → st' = st.
Proof.
  intros H. unfold createOrderFromCartController in H.
  apply bind_inv in H as [(a & st1 & Hauth & Htx)|(e' & Hauth & _)].
  - apply requireAuth_inv_Ok in Hauth as [_ ->].
    apply transaction_inv in Htx as [(? & ? & _ & ? & _)|(? & ? & _ & _ & ->)]; done.
  - destruct authUser; by injection Hauth as _ <-.
Qed.

Lemma createOrder_rejects_invalid (u now : Z) (st : Store) (cid : Z) (cart : Cart) :
  cart_findFirstActive u (db st) = Some (cid, cart) →
  (∀ b ci, cartItems (db st) !! (cid, b) = Some ci → is_Some (books (db st) !! b)) →
  ((∀ b, cartItems (db st) !! (cid, b) = None) ∨
   (∃ b ci bk,
      cartItems (db st) !! (cid, b) = Some ci ∧ books (db st) !! b = Some bk ∧
      (is_Some (book_deletedAt bk) ∨ book_stock bk < item_quantity ci))) →
  createOrderFromCartController (Some u) now st
  = (Err (ApiError 422 UNPROCESSABLE_ENTITY), st).
Proof.
  intros Hcart Hfk Hbad.
  destruct (includeBook_total (db st) (cartItem_ofCart cid (db st))) as [items Hincl].
  { intros [b ci] Hin. apply elem_of_cartItem_ofCart in Hin. by apply (Hfk b ci). }
  apply includeBook_inv in Hincl as Hjoin.
  unfold createOrderFromCartController. se_step.
  eapply transaction_Err. apply (checkout_invalid _ _ _ cid cart items); [done..|].
  destruct Hbad as [Hempty|(b & ci & bk & Hci & Hbk & Hbad)].
  - left. destruct (cartItem_ofCart cid (db st)) as [|[b ci] l] eqn:E.
    + by inversion Hjoin.
    + assert ((b, ci) ∈ cartItem_ofCart cid (db st)) as Hin by (rewrite E; by left).
      apply elem_of_cartItem_ofCart in Hin. by rewrite Hempty in Hin.
  - right. intros Hall. apply elem_of_cartItem_ofCart in Hci.
    destruct (joined_lookup _ _ _ _ Hjoin Hci) as (it & Hin & _ & Hitem & Hbook).
    cbn [fst snd] in Hitem, Hbook. rewrite Hbk in Hbook. injection Hbook as Hbook.
    apply list_elem_of_In in Hin.
    pose proof (proj1 (Forall_forall _ _) Hall it Hin) as [Hdel Hstock].
    rewrite <- Hbook, Hitem in *. destruct Hbad as [[t Ht]|?]; [congruence|lia].
Qed.

(** C1. Whatever makes [createOrderFromCartController] fail, the store
    after the call is the store before it: no order and no order item is
    added, no stock is changed, the cart keeps its status, and nothing is
    committed.  The validation failures are: no ACTIVE cart of the user
    (404 RESOURCE_NOT_FOUND); an ACTIVE cart with no item, or with an item
    whose book is soft-deleted or has less stock than the quantity of the
    item (422 UNPROCESSABLE_ENTITY). *)
Theorem checkout_atomic (u now : Z) (st : Store) :
  (∀ authUser e st',
     createOrderFromCartController authUser now st = (Err e, st') → st' = st) ∧
  (cart_findFirstActive u (db st) = None →
     createOrderFromCartController (Some u) now st
     = (Err (ApiError 404 RESOURCE_NOT_FOUND), st)) ∧
  (∀ cid cart,
     cart_findFirstActive u (db st) = Some (cid, cart) →
     (∀ b ci, cartItems (db st) !! (cid, b) = Some ci → is_Some (books (db st) !! b)) →
     ((∀ b, cartItems (db st) !! (cid, b) = None) ∨
      (∃ b ci bk,
         cartItems (db st) !! (cid, b) = Some ci ∧ books (db st) !! b = Some bk ∧
         (is_Some (book_deletedAt bk) ∨ book_stock bk < item_quantity ci))) →
     createOrderFromCartController (Some u) now st
     = (Err (ApiError 422 UNPROCESSABLE_ENTITY), st)).
Proof.
  split; [|split].
  - intros authUser e st'. apply createOrder_failure_rolls_back.
  - intros Hnone. unfold createOrderFromCartController. se_step.
    eapply transaction_Err. by apply checkout_no_cart.
  - intros cid cart. apply createOrder_rejects_invalid.
Qed.

(** Membership of a row in a table that is given explicitly. *)
Ltac explicit_rows H :=
  apply elem_of_map_to_list in H; vm_compute in H;
  repeat (apply elem_of_cons in H as [H|H]); try (by apply elem_of_nil in H);
  simplify_eq.

Lemma checkout_atomic_witness :
  createOrderFromCartController (Some 7) 300 sampleStore
  = (Err (ApiError 404 RESOURCE_NOT_FOUND), sampleStore) ∧
  createOrderFromCartController (Some 7) 300 shortStockStore
  = (Err (ApiError 422 UNPROCESSABLE_ENTITY), shortStockStore).
Proof.
  split.
  - exact (proj1 (proj2 (checkout_atomic 7 300 sampleStore)) eq_refl).
  - refine (proj2 (proj2 (checkout_atomic 7 300 shortStockStore)) 1 _ eq_refl _ _).
    + intros b ci H. explicit_rows H; by eexists.
    + right. exists 2. eexists _, _. split; [reflexivity|]. split; [reflexivity|].
      right. simpl. lia.
Defined.


(** ** A checkout that succeeds *)



(** ** At most one ACTIVE cart *)

Lemma NoDup_filter_keys {V : Type} (P : Z * V → Prop) `{!∀ x, Decision (P x)}
    (l : list (Z * V)) :
  NoDup l.*1 → NoDup (filter P l).*1.
Proof.
  induction l as [|x l IH]; intros Hnd; [constructor|].
  rewrite fmap_cons in Hnd.
  pose proof (NoDup_cons_1_1 _ _ Hnd) as Hnotin. apply NoDup_cons_1_2 in Hnd.
  rewrite filter_cons. destruct (decide (P x)); [|by apply IH].
  rewrite fmap_cons. apply NoDup_cons_2; [|by apply IH].
  intros Hin. apply Hnotin. apply list_elem_of_fmap in Hin as (y & -> & Hy).
  apply list_elem_of_filter in Hy as [_ Hy]. by apply list_elem_of_fmap_2.
Qed.

Lemma NoDup_rows_keys {V : Type} (m : gmap Z V) : NoDup (rows m).*1.
Proof. rewrite rows_Permutation. apply NoDup_fst_map_to_list. Qed.

Lemma oneActive_iff (d : DB) : atMostOneActiveCart d ↔ oneActive (carts d).
Proof.
  unfold atMostOneActiveCart, cart_findManyActive, oneActive. split.
  - intros Hlen i j ci cj Hi Hj Hai Haj Hu.
    specialize (Hlen (cart_userId ci)).
    assert ((i, ci) ∈ filter (λ r : Z * Cart, cart_userId r.2 = cart_userId ci ∧
                                              cart_status r.2 = ACTIVE) (rows (carts d)))
      as Hini by (apply list_elem_of_filter; split; [done|by apply elem_of_rows]).
    assert ((j, cj) ∈ filter (λ r : Z * Cart, cart_userId r.2 = cart_userId ci ∧
                                              cart_status r.2 = ACTIVE) (rows (carts d)))
      as Hinj by (apply list_elem_of_filter; split; [done|by apply elem_of_rows]).
    destruct (filter _ (rows (carts d))) as [|a [|b l]]; simpl in Hlen; [|..|lia].
    + by apply elem_of_nil in Hini.
    + apply list_elem_of_singleton in Hini, Hinj. congruence.
  - intros Hone u.
    pose proof (NoDup_filter_keys
                  (λ r : Z * Cart, cart_userId r.2 = u ∧ cart_status r.2 = ACTIVE)
                  _ (NoDup_rows_keys (carts d))) as Hnd.
    assert (∀ r, r ∈ filter (λ r : Z * Cart, cart_userId r.2 = u ∧
                                             cart_status r.2 = ACTIVE) (rows (carts d)) →
                 carts d !! r.1 = Some r.2 ∧ cart_userId r.2 = u ∧
                 cart_status r.2 = ACTIVE) as Hin.
    { intros [i c] Hr. apply list_elem_of_filter in Hr as [[? ?] Hr].
      by apply elem_of_rows in Hr. }
    destruct (filter _ (rows (carts d))) as [|a [|b l]]; simpl; [lia..|].
    exfalso. rewrite !fmap_cons in Hnd. apply NoDup_cons_1_1 in Hnd. apply Hnd.
    destruct (Hin a) as (Ha & Hua & Haa); [by left|].
    destruct (Hin b) as (Hb & Hub & Hab); [right; by left|].
    rewrite (Hone a.1 b.1 a.2 b.2) by congruence. by left.
Qed.

Global Instance keepsOneActive_preorder : PreOrder keepsOneActive.
Proof.
  split; [intros d H; exact H|]. intros d1 d2 d3 H1 H2 H. by apply H2, H1.
Qed.

Lemma keeps_carts_oneActive {A : Type} (t : Tx A) :
  txPreserves (keeps carts) t → txPreserves keepsOneActive t.
Proof. intros Ht d a d' H Hone. by rewrite (Ht d a d' H). Qed.

Lemma getOrCreateActiveCart_oneActive (u now : Z) :
  hPreserves keepsOneActive (getOrCreateActiveCart u now).
Proof.
  intros st r st' H Hone.
  destruct (getOrCreateActiveCart_spec u now st) as (cart & st1 & Hrun & _ & _ & _ & Hst).
  rewrite Hrun in H. injection H as _ <-.
  destruct Hst as [[_ ->]|(Hnone & -> & ->)]; [done|].
  cbn [db carts set_carts fst snd].
  intros i j ci cj Hi Hj Hai Haj Hu.
  pose proof (cart_findFirstActive_None _ _ Hnone) as Hno.
  destruct (decide (i = nextId (carts (db st)))) as [->|Hni];
    destruct (decide (j = nextId (carts (db st)))) as [->|Hnj]; [done|..].
  - rewrite lookup_insert_eq in Hi. rewrite lookup_insert_ne in Hj by done.
    injection Hi as <-. cbn in Hu. exfalso. by apply (Hno j cj).
  - rewrite lookup_insert_eq in Hj. rewrite lookup_insert_ne in Hi by done.
    injection Hj as <-. cbn in Hu. exfalso. by apply (Hno i ci).
  - rewrite lookup_insert_ne in Hi, Hj by done. by apply (Hone i j ci cj).
Qed.

Lemma checkOut_oneActive (id now : Z) :
  txPreserves keepsOneActive
    (cart_update id (λ c, mkCart (cart_userId c) CHECKED_OUT (cart_createdAt c) now)).
Proof.
  intros d a d' H Hone. unfold cart_update in H.
  destruct (carts d !! id) as [c|] eqn:Hc; [|discriminate]. injection H as _ <-.
  cbn [carts set_carts]. intros i j ci cj Hi Hj Hai Haj Hu.
  destruct (decide (i = id)) as [->|Hni].
  { rewrite lookup_insert_eq in Hi. by injection Hi as <-. }
  destruct (decide (j = id)) as [->|Hnj].
  { rewrite lookup_insert_eq in Hj. by injection Hj as <-. }
  rewrite lookup_insert_ne in Hi, Hj by done. by apply (Hone i j ci cj).
Qed.

Lemma handle_oneActive (r : CartRequest) (st : Store) :
  keepsOneActive (db st) (db (handle r st)).
Proof.
  assert (∀ A (h : Handler A), hPreserves keepsOneActive h →
            keepsOneActive (db st) (db (h st).2)) as Hrun.
  { intros A h Hh. destruct (h st) as [res st'] eqn:E. by apply (Hh st res st'). }
  destruct r; cbn [handle]; apply Hrun;
    unfold listCartController, addCartItemController, updateCartItemController,
      removeCartItemController, createOrderFromCartController, checkout,
      validateItem, placeItem;
    repeat preserves_step;
    first [ apply getOrCreateActiveCart_oneActive
          | apply checkOut_oneActive
          | apply keeps_carts_oneActive;
            first [ by apply cartItem_create_keeps
                  | by apply cartItem_update_keeps
                  | by apply cartItem_deleteMany_keeps
                  | by apply orderItem_create_keeps
                  | by apply book_update_keeps
                  | by apply order_create_keeps
                  | apply cartItem_findManyWithBook_keeps; apply _ ] ].
Qed.

(** C4. Handling cart requests one after the other, whatever they are and
    whoever sends them, keeps the invariant: if every user has at most one
    ACTIVE cart before, every user has at most one ACTIVE cart after. *)
Theorem at_most_one_active_cart (rs : list CartRequest) (st : Store) :
  atMostOneActiveCart (db st) → atMostOneActiveCart (db (serve rs st)).
Proof.
  rewrite !oneActive_iff. revert st.
  induction rs as [|r rs IH]; intros st Hone; [done|].
  cbn [serve foldl]. apply IH. by apply handle_oneActive.
Qed.

Lemma at_most_one_active_cart_witness :
  atMostOneActiveCart (db (serve sampleRequests sampleStore)).
Proof.
  apply at_most_one_active_cart. intros u. apply le_S, le_n.
Defined.

(** ** Stock *)

Global Instance conserved_preorder : PreOrder conserved.
Proof.
  split; [by intros d b|]. intros d1 d2 d3 H1 H2 b. by rewrite H2, H1.
Qed.

Lemma keeps_conserved {A : Type} (t : Tx A) :
  txPreserves (keeps (λ d, (books d, orderItems d))) t → txPreserves conserved t.
Proof.
  intros Ht d a d' H b. pose proof (Ht d a d' H) as Heq. unfold keeps in Heq.
  injection Heq as Hb Ho. unfold stockOf, orderedQty. by rewrite Hb, Ho.
Qed.

Lemma h_keeps_conserved {A : Type} (h : Handler A) :
  hPreserves (keeps (λ d, (books d, orderItems d))) h → hPreserves conserved h.
Proof.
  intros Hh st r st' H b. pose proof (Hh st r st' H) as Heq. unfold keeps in Heq.
  injection Heq as Hb Ho. unfold stockOf, orderedQty. by rewrite Hb, Ho.
Qed.

Lemma orderedQty_insert (m : gmap (Z * Z) OrderItem) (k : Z * Z) (oi : OrderItem) (b : Z) :
  m !! k = None →
  sumZ ((λ r, oi_quantity r.2) <$> filter (λ r, r.1.2 = b) (map_to_list (<[k:=oi]> m)))
  = (if decide (k.2 = b) then oi_quantity oi else 0)
    + sumZ ((λ r, oi_quantity r.2) <$> filter (λ r, r.1.2 = b) (map_to_list m)).
Proof.
  intros Hk.
  rewrite (sumZ_Permutation _
             ((λ r, oi_quantity r.2) <$> filter (λ r, r.1.2 = b) ((k, oi) :: map_to_list m))).
  - rewrite filter_cons. cbn [fst snd]. destruct (decide (k.2 = b)); [|done].
    by rewrite fmap_cons.
  - apply fmap_Permutation, filter_Permutation. by apply map_to_list_insert.
Qed.

Lemma placeItem_conserved (oid : Z) (it : CartItemWithBook) :
  txPreserves conserved (placeItem oid it).
Proof.
  intros d x d' H b0. apply placeItem_inv in H as (Hfree & bk & Hbk & ->).
  unfold stockOf, orderedQty. cbn [books orderItems set_books set_orderItems].
  rewrite (orderedQty_insert _ _ _ _ Hfree). cbn [snd].
  destruct (decide (cib_bookId it = b0)) as [<-|Hne].
  - rewrite lookup_insert_eq, Hbk. cbn. unfold orderItemOf. cbn. lia.
  - rewrite lookup_insert_ne by done. lia.
Qed.

Lemma handle_conserved (r : CartRequest) (st : Store) :
  conserved (db st) (db (handle r st)).
Proof.
  assert (∀ A (h : Handler A), hPreserves conserved h →
            conserved (db st) (db (h st).2)) as Hrun.
  { intros A h Hh. destruct (h st) as [res st'] eqn:E. by apply (Hh st res st'). }
  destruct r; cbn [handle]; apply Hrun.
  - apply h_keeps_conserved. by apply listCart_keeps.
  - apply h_keeps_conserved. by apply addCartItem_keeps.
  - apply h_keeps_conserved. by apply updateCartItem_keeps.
  - apply h_keeps_conserved. by apply removeCartItem_keeps.
  - unfold createOrderFromCartController, checkout, validateItem.
    repeat preserves_step;
      first [ apply placeItem_conserved
            | apply keeps_conserved;
              first [ by apply order_create_keeps
                    | by apply cart_update_keeps
                    | apply cartItem_findManyWithBook_keeps; apply _ ] ].
Qed.


Lemma handle_nonnegative (r : CartRequest) (st : Store) :
  stockNonNegative (db st) → stockNonNegative (db (handle r st)).
Proof.
  intros Hst.
  assert (∀ A (h : Handler A), hPreserves (keeps books) h →
            stockNonNegative (db (h st).2)) as Hkeep.
  { intros A h Hh. destruct (h st) as [res st'] eqn:E.
    pose proof (Hh st res st' E) as Heq. unfold keeps in Heq.
    unfold stockNonNegative. cbn [snd]. by rewrite Heq. }
  destruct r; cbn [handle].
  1: apply Hkeep; by apply listCart_keeps.
  1: apply Hkeep; by apply addCartItem_keeps.
  1: apply Hkeep; by apply updateCartItem_keeps.
  1: apply Hkeep; by apply removeCartItem_keeps.
  destruct (createOrderFromCartController authUser now st) as [[res|e] st'] eqn:E;
    cbn [snd]; [|by rewrite (createOrder_failure_rolls_back _ _ _ _ _ E)].
  unfold createOrderFromCartController in E.
  se_inv E u s1 Hauth.
  apply transaction_inv in E as [(a & d' & Hbody & _ & ->)|(e & d' & _ & Ha & _)];
    [|discriminate].
  apply checkout_inv in Hbody
    as (cid & cart & items & d2 & _ & Hjoin & _ & Hvalid & _ & Hloop & ->).
  apply placeItems_inv in Hloop as (_ & Hitems & _ & Hbooks).
  cbn [books set_orders] in Hitems, Hbooks.
  intros b bk' Hb. cbn [db books set_carts] in Hb.
  destruct (decide (b ∈ cib_bookId <$> items)) as [Hin|Hnotin].
  - apply list_elem_of_fmap in Hin as (it & -> & Hin).
    destruct (Hitems it Hin) as (_ & _ & bk & Hbk & Hbk').
    rewrite Hbk' in Hb. injection Hb as <-. cbn [book_stock book_with_stock].
    destruct (joined_elem_of _ _ _ _ Hjoin Hin) as [_ Hbook].
    rewrite Hbook in Hbk. injection Hbk as <-.
    apply list_elem_of_In in Hin.
    pose proof (proj1 (Forall_forall _ _) Hvalid it Hin) as [_ Hstock]. lia.
  - rewrite (Hbooks b Hnotin) in Hb. by apply (Hst b).
Qed.

(** C3. Over every sequence of cart and checkout requests, the stock of a
    book plus the copies of it in order items stays the same: the stock
    after equals the stock before minus the quantities ordered in between.
    If no stock is negative before, none is after.  A request to add more
    copies than the book has in stock is answered 422 UNPROCESSABLE_ENTITY
    and leaves every book as it was, and so is a checkout of a cart with an
    item for which the stock is short, which leaves the whole store as it
    was. *)
Theorem stock_never_negative :
  (∀ rs st b,
     stockOf b (db (serve rs st))
     = stockOf b (db st) - (orderedQty b (db (serve rs st)) - orderedQty b (db st))) ∧
  (∀ rs st, stockNonNegative (db st) → stockNonNegative (db (serve rs st))) ∧
  (∀ u bId q now st bk,
     0 < bId → 1 ≤ q ≤ 999 →
     books (db st) !! bId = Some bk → book_deletedAt bk = None →
     book_stock bk < q →
     ∃ st', addCartItemController (Some u) (JsInt bId) (JsInt q) now st
            = (Err (ApiError 422 UNPROCESSABLE_ENTITY), st') ∧
            books (db st') = books (db st)) ∧
  (∀ u now st cid cart b ci bk,
     cart_findFirstActive u (db st) = Some (cid, cart) →
     (∀ b ci, cartItems (db st) !! (cid, b) = Some ci → is_Some (books (db st) !! b)) →
     cartItems (db st) !! (cid, b) = Some ci → books (db st) !! b = Some bk →
     book_stock bk < item_quantity ci →
     createOrderFromCartController (Some u) now st
     = (Err (ApiError 422 UNPROCESSABLE_ENTITY), st)).
Proof.
  split; [|split; [|split]].
  - intros rs st b.
    enough (conserved (db st) (db (serve rs st))) as H by (specialize (H b); lia).
    revert st. induction rs as [|r rs IH]; intros st; [done|].
    cbn [serve foldl]. transitivity (db (handle r st)); [apply handle_conserved|apply IH].
  - intros rs. induction rs as [|r rs IH]; intros st Hst; [done|].
    cbn [serve foldl]. apply IH. by apply handle_nonnegative.
  - intros u bId q now st bk Hid Hq Hbk Hlive Hshort.
    pose proof (parseId_Ok _ Hid) as Hp.
    assert (parseQuantity (JsInt q) = Ok q) as Hpq by (by apply parseQuantity_Ok).
    destruct (getOrCreateActiveCart_spec u now st) as (cart & st1 & Hc & _ & _ & _ & Hst).
    assert (books (db st1) = books (db st)) as Hb
      by (destruct Hst as [[_ ->]|(_ & _ & ->)]; done).
    exists st1. split; [|done].
    unfold addCartItemController. se_run.
    rewrite (proj2 (book_findFirstLive_Some bId (db st1) bk)) by (by rewrite Hb).
    apply bind_Err, throwIf_true, bool_decide_eq_true_2. lia.
  - intros u now st cid cart b ci bk Hcart Hfk Hci Hbk Hshort.
    apply (createOrder_rejects_invalid u now st cid cart Hcart Hfk).
    right. exists b, ci, bk. split; [done|]. split; [done|]. by right.
Qed.

Lemma stock_never_negative_witness :
  stockOf 1 (db (serve sampleRequests sampleStore)) = 2 ∧
  stockNonNegative (db (serve sampleRequests sampleStore)) ∧
  (∃ st', addCartItemController (Some 7) (JsInt 2) (JsInt 2) 100 sampleStore
          = (Err (ApiError 422 UNPROCESSABLE_ENTITY), st') ∧
          books (db st') = books (db sampleStore)) ∧
  createOrderFromCartController (Some 7) 300 shortStockStore
  = (Err (ApiError 422 UNPROCESSABLE_ENTITY), shortStockStore).
Proof.
  destruct stock_never_negative as (Hsum & Hpos & Hadd & Hcheckout).
  split; [|split; [|split]].
  - rewrite (Hsum sampleRequests sampleStore 1). reflexivity.
  - apply Hpos. intros b bk H. explicit_rows H; simpl; lia.
  - apply (Hadd 7 2 2 100 sampleStore scarceBook); first [reflexivity | simpl; lia].
  - apply (Hcheckout 7 300 shortStockStore 1 (mkCart 7 ACTIVE 100 100) 2
             (mkCartItem 1 7000 150 150) (book_with_stock 0 scarceBook));
      [reflexivity| |reflexivity|reflexivity|simpl; lia].
    intros b ci H. explicit_rows H; by eexists.
Defined.
